(** * Fee calculation module of the Multi-Metal Token App (backend/fees.js)

    A shallow embedding of the fee, redemption, limit and portfolio
    functions of the module, written once over an interface of JavaScript
    numbers and run at two instances:

    - [float]: IEEE 754 binary64, the numbers JavaScript computes with;
    - [exact]: rational numbers with one not-a-number element, the
      arithmetic the specification reasons in.

    The properties of the code are proved over the binary64 numbers, or
    over every number model when they hold by the structure of the code
    alone. The exact numbers serve the property that the specification
    states in exact arithmetic, and companions of binary64 statements. *)

From Stdlib Require Import ZArith QArith Qround Lia Lqa Bool List String.
From Stdlib Require Import Floats.
Import ListNotations.

Set Implicit Arguments.
Set Warnings "-inexact-float".

Local Open Scope string_scope.

(** ** JavaScript numbers *)

Declare Scope js_scope.
Delimit Scope js_scope with js.

(** The operations of the Number type the module uses. [lit] is a numeric
    literal of the source text, [seq] is strict equality [===], [lt] and
    [le] are [<] and [<=]. *)
Class JSNumber (N : Type) : Type := {
  lit : Q -> N;
  NaN : N;
  add : N -> N -> N;
  sub : N -> N -> N;
  mul : N -> N -> N;
  div : N -> N -> N;
  lt : N -> N -> bool;
  le : N -> N -> bool;
  seq : N -> N -> bool;
  Math_round : N -> N
}.

Arguments lit {N _} q%_Q.
Arguments NaN {N _}.

Infix "+" := add : js_scope.
Infix "-" := sub : js_scope.
Infix "*" := mul : js_scope.
Infix "/" := div : js_scope.
Notation "x <? y" := (lt x y) : js_scope.
Notation "x <=? y" := (le x y) : js_scope.
Notation "x >? y" := (lt y x) (only parsing) : js_scope.
Notation "x >=? y" := (le y x) (only parsing) : js_scope.
Notation "x =? y" := (seq x y) : js_scope.
Notation "x === y" := (seq x y = true) (at level 70, no associativity) : js_scope.

Section Generic.

Context {N : Type} `{JSNumber N}.
Local Open Scope js_scope.

(** ToBoolean on a number: [0], [-0] and [NaN] are falsy. *)
Definition truthy (x : N) : bool := negb (x =? lit 0) && (x =? x).

(** [x || d] for a number [x]. *)
Definition or_else (x d : N) : N := if truthy x then x else d.

(** [Math.pow(x, 2)]. ECMAScript leaves [Math.pow] implementation
    approximated; the square is taken as the product. *)
Definition Math_pow_2 (x : N) : N := x * x.

(** The idiom [Math.round(x * 100) / 100] of the module, and its four
    digit variant [Math.round(x * 10000) / 10000]. *)
Definition round2 (x : N) : N := Math_round (x * lit 100) / lit 100.
Definition round4 (x : N) : N := Math_round (x * lit 10000) / lit 10000.

End Generic.

(** ** Binary64 instance *)

Module Binary64.

(** An integer as a double; exact for magnitudes up to 2^53. *)
Definition Z2float (z : Z) : float :=
  match z with
  | Z0 => 0%float
  | Zpos _ => of_uint63 (Uint63.of_Z z)
  | Zneg p => (- of_uint63 (Uint63.of_Z (Zpos p)))%float
  end.

(** A decimal literal denotes the double nearest to its value. Numerator
    and denominator of the literals of the module are doubles, and the
    division of two doubles is correctly rounded, so their quotient is that
    double. *)
Definition float_lit (q : Q) : float :=
  (Z2float (Qnum q) / Z2float (Zpos (Qden q)))%float.

(** [Math.round]: the integer nearest to [x], ties towards +Infinity;
    zeros, infinities and NaN are returned as they are, and a result of
    zero keeps the sign of [x]. Computed on the mantissa and exponent of
    [x]: for [x = (-1)^s * m * 2^e] with [e < 0] the result is
    [floor ((2 * (-1)^s * m + 2^(-e)) / 2^(1-e))]. *)
Definition float_round (x : float) : float :=
  match Prim2SF x with
  | S754_finite s m e =>
      if (0 <=? e)%Z then x
      else
        let sm := if s then Zneg m else Zpos m in
        let n := ((2 * sm + 2 ^ (- e)) / 2 ^ (1 - e))%Z in
        if (n =? 0)%Z then (if s then neg_zero else zero) else Z2float n
  | _ => x
  end.

#[export] Instance float_number : JSNumber float := {
  lit := float_lit;
  NaN := nan;
  add := PrimFloat.add;
  sub := PrimFloat.sub;
  mul := PrimFloat.mul;
  div := PrimFloat.div;
  lt := PrimFloat.ltb;
  le := PrimFloat.leb;
  seq := PrimFloat.eqb;
  Math_round := float_round
}.

End Binary64.

(** ** Exact instance *)

Module Exact.

(** Rational numbers and one not-a-number element. There are no
    infinities: a division by zero is not a number. *)
Inductive exact : Type :=
  | Fin (q : Q)
  | Nan.

Definition lift2 (f : Q -> Q -> Q) (a b : exact) : exact :=
  match a, b with
  | Fin p, Fin q => Fin (f p q)
  | _, _ => Nan
  end.

Definition test2 (f : Q -> Q -> bool) (a b : exact) : bool :=
  match a, b with
  | Fin p, Fin q => f p q
  | _, _ => false
  end.

Definition exact_div (a b : exact) : exact :=
  match a, b with
  | Fin p, Fin q => if Qeq_bool q 0 then Nan else Fin (p / q)
  | _, _ => Nan
  end.

Definition Qlt_bool (p q : Q) : bool := negb (Qle_bool q p).

(** [Math.round]: [floor (x + 1/2)]. *)
Definition exact_round (a : exact) : exact :=
  match a with
  | Fin q => Fin (inject_Z (Qfloor (q + (1 # 2))))
  | Nan => Nan
  end.

#[export] Instance exact_number : JSNumber exact := {
  lit := Fin;
  NaN := Nan;
  add := lift2 Qplus;
  sub := lift2 Qminus;
  mul := lift2 Qmult;
  div := exact_div;
  lt := test2 Qlt_bool;
  le := test2 Qle_bool;
  seq := test2 Qeq_bool;
  Math_round := exact_round
}.

End Exact.

Import Binary64 Exact.

Local Open Scope js_scope.

(** ** JavaScript objects used as tables *)

(** The property names every object literal inherits from
    [Object.prototype]. *)
Definition Object_prototype : list string :=
  ["constructor"; "__defineGetter__"; "__defineSetter__"; "hasOwnProperty";
   "__lookupGetter__"; "__lookupSetter__"; "isPrototypeOf";
   "propertyIsEnumerable"; "toString"; "valueOf"; "__proto__";
   "toLocaleString"].

(** What [o[k]] evaluates to: an own property of the literal, a member
    inherited from [Object.prototype] (a function, or the prototype object
    itself for [__proto__]), or [undefined]. *)
Inductive property (A : Type) : Type :=
  | Own (a : A)
  | Inherited (k : string)
  | Absent.

Arguments Inherited {A} k.
Arguments Absent {A}.

Fixpoint own (A : Type) (o : list (string * A)) (k : string) : option A :=
  match o with
  | [] => None
  | (k', a) :: o' => if String.eqb k k' then Some a else own o' k
  end.

Definition get (A : Type) (o : list (string * A)) (k : string) : property A :=
  match own o k with
  | Some a => Own a
  | None => if existsb (String.eqb k) Object_prototype then Inherited k else Absent
  end.

(** How a call ends: with a value, or with an exception. *)
Inductive error : Type :=
  | TypeError.

Inductive completion (A : Type) : Type :=
  | Normal (a : A)
  | Throw (e : error).

Arguments Throw {A} e.

(** ** The functions of the module *)

Section Fees.

Context {N : Type} `{JSNumber N}.

(** *** calculateFees *)

Record FeeBreakdown : Type := {
  spreadFee : N;
  platformFee : N;
  gst : N;
  totalFee : N;
  totalFeePercentage : N
}.

(** The function destructures [{ type, asset, amount, marketPrice, user }];
    [asset] and [user] are not read. A primed name is the local variable or
    parameter of the source whose name a record field of this file has. *)
Definition calculateFees (type asset : string) (amount' marketPrice : N)
  : FeeBreakdown :=
  let principalAmount := amount' * marketPrice in
  let spreadFee' := principalAmount * lit 0.01 in
  let platformFeeRate :=
    if String.eqb type "buy" then lit 0.001 else lit 0.001 in
  let platformFee' := principalAmount * platformFeeRate in
  let totalFee' := spreadFee' + platformFee' in
  let gst' := totalFee' * lit 0.18 in
  {| spreadFee := Math_round (spreadFee' * lit 100) / lit 100;
     platformFee := Math_round (platformFee' * lit 100) / lit 100;
     gst := Math_round (gst' * lit 100) / lit 100;
     totalFee := Math_round ((totalFee' + gst') * lit 100) / lit 100;
     totalFeePercentage :=
       ((spreadFee' + platformFee' + gst') / principalAmount) * lit 100 |}.

(** A call [calculateFees(params)]. The parameter is the pattern
    [{ type, asset, amount, marketPrice, user }]: destructuring throws a
    TypeError when the argument is [undefined] or [null] (a call without
    an argument), before the body runs; the body itself has no [throw]. A
    property the argument lacks is [undefined]: as a number it is NaN, as
    a trade type it is not ['buy']. *)
Record TradeParams : Type := {
  params_type : string;
  params_asset : string;
  params_amount : N;
  params_marketPrice : N
}.

Definition calculateFees_call (params : option TradeParams)
  : completion FeeBreakdown :=
  match params with
  | None => Throw TypeError
  | Some p =>
      Normal (calculateFees (params_type p) (params_asset p)
                (params_amount p) (params_marketPrice p))
  end.

(** *** calculateSIPFee *)

Definition calculateSIPFee (frequency : string) : N :=
  let baseMonthlyFee := lit 50 in
  if String.eqb frequency "daily" then baseMonthlyFee / lit 30
  else if String.eqb frequency "weekly" then baseMonthlyFee / lit 4
  else if String.eqb frequency "monthly" then baseMonthlyFee
  else baseMonthlyFee.

(** *** calculateSwapFee *)

(** The result [{ percentage, fee, amount }]; [swapAmount] is its [amount]
    field. *)
Record SwapFee : Type := {
  percentage : N;
  fee : N;
  swapAmount : N
}.

Definition calculateSwapFee (amount' : N) : SwapFee :=
  let percentage' :=
    if amount' >=? lit 1000000 then lit 0.001
    else if amount' >=? lit 500000 then lit 0.002
    else if amount' >=? lit 100000 then lit 0.003
    else if amount' >=? lit 50000 then lit 0.004
    else lit 0.005 in
  let fee' := amount' * percentage' in
  {| percentage := percentage';
     fee := Math_round (fee' * lit 100) / lit 100;
     swapAmount := amount' |}.

(** *** calculateRedemptionFees *)

Record RedemptionFees : Type := {
  deliveryFee : N;
  insuranceFee : N;
  processingFee : N;
  totalFees : N;
  netValue : N
}.

Definition marketPrices : list (string * N) :=
  [("gold", lit 6000); ("silver", lit 75); ("platinum", lit 2800)].

(** [marketPrices[asset] || 1]. An inherited member is an object, which is
    truthy and which the product converts to NaN. *)
Definition redemptionPrice (asset : string) : N :=
  match get marketPrices asset with
  | Own price => or_else price (lit 1)
  | Inherited _ => NaN
  | Absent => lit 1
  end.

(** [const value = amount * (marketPrices[asset] || 1)]. *)
Definition redemptionValue (asset : string) (amount' : N) : N :=
  amount' * redemptionPrice asset.

(** The [switch (deliveryMethod)]. *)
Definition redemptionDeliveryFee (amount' : N) (deliveryMethod : string) : N :=
  if String.eqb deliveryMethod "HOME" then
    if amount' <=? lit 10 then lit 50
    else if amount' <=? lit 50 then lit 100 else lit 200
  else if String.eqb deliveryMethod "STORE" then lit 0
  else if String.eqb deliveryMethod "VAULT" then lit 25
  else lit 50.

Definition calculateRedemptionFees (asset : string) (amount' : N)
  (deliveryMethod : string) : RedemptionFees :=
  let value' := redemptionValue asset amount' in
  let deliveryFee' := redemptionDeliveryFee amount' deliveryMethod in
  let insuranceFee' := value' * lit 0.005 in
  let processingFee' := value' * lit 0.01 in
  let totalFees' := deliveryFee' + insuranceFee' + processingFee' in
  {| deliveryFee := deliveryFee';
     insuranceFee := Math_round (insuranceFee' * lit 100) / lit 100;
     processingFee := Math_round (processingFee' * lit 100) / lit 100;
     totalFees := Math_round (totalFees' * lit 100) / lit 100;
     netValue := value' - totalFees' |}.

(** *** calculateProfitLoss *)

Record ProfitLoss : Type := {
  investedAmount : N;
  currentValue : N;
  profit : N;
  profitPercentage : N;
  isProfit : bool
}.

Definition calculateProfitLoss (investedAmount' currentValue' : N)
  : ProfitLoss :=
  let profit' := currentValue' - investedAmount' in
  let profitPercentage' :=
    if investedAmount' >? lit 0
    then (profit' / investedAmount') * lit 100 else lit 0 in
  {| investedAmount := investedAmount';
     currentValue := currentValue';
     profit := Math_round (profit' * lit 100) / lit 100;
     profitPercentage := Math_round (profitPercentage' * lit 100) / lit 100;
     isProfit := profit' >=? lit 0 |}.

(** *** calculateDiversification *)

Record Holding : Type := {
  balance : N;
  currentPrice : N
}.

Record Allocation : Type := {
  weight : N;
  value : N
}.

(** The result object; the early return for an empty portfolio has no
    [hhi] field. *)
Record Diversification : Type := {
  diversificationScore : N;
  allocation : list (string * Allocation);
  riskLevel : string;
  hhi : option N
}.

Definition assets : list string := ["gold"; "silver"; "platinum"; "stablecoin"].

(** [portfolio[asset]?.balance * portfolio[asset]?.currentPrice || 0]:
    without an own entry both factors are [undefined] and the product is
    NaN. *)
Definition holdingValue (portfolio : list (string * Holding))
  (asset : string) : N :=
  or_else
    match get portfolio asset with
    | Own h => balance h * currentPrice h
    | _ => NaN
    end
    (lit 0).

Definition calculateDiversification (portfolio : list (string * Holding))
  : Diversification :=
  let totalValue :=
    fold_left (fun sum asset => sum + holdingValue portfolio asset)
      assets (lit 0) in
  if totalValue =? lit 0 then
    {| diversificationScore := lit 0;
       allocation := [];
       riskLevel := "LOW";
       hhi := None |}
  else
    let weightOf asset :=
      (holdingValue portfolio asset / totalValue) * lit 100 in
    let allocation' :=
      map (fun asset =>
             (asset,
              {| weight := Math_round (weightOf asset * lit 100) / lit 100;
                 value :=
                   Math_round (holdingValue portfolio asset * lit 100)
                   / lit 100 |}))
        assets in
    let weights := map weightOf assets in
    let hhi' :=
      fold_left (fun sum weight => sum + Math_pow_2 (weight / lit 100))
        weights (lit 0) in
    let diversificationScore' := Math_round ((lit 1 - hhi') * lit 100) in
    let riskLevel' :=
      if diversificationScore' >=? lit 70 then "LOW"
      else if diversificationScore' >=? lit 40 then "MEDIUM"
      else "HIGH" in
    {| diversificationScore := diversificationScore';
       allocation := allocation';
       riskLevel := riskLevel';
       hhi := Some (Math_round (hhi' * lit 10000) / lit 10000) |}.

(** *** getMinimumAmounts and getMaximumAmounts *)

(** [{ amount, unit, inr }]; [unit_] is the [unit] field, [None] when it
    is [undefined]. *)
Record Limits : Type := {
  amount : N;
  unit_ : option string;
  inr : N
}.

Definition minimums : list (string * Limits) :=
  [("gold", {| amount := lit 0.1; unit_ := Some "gram"; inr := lit 600 |});
   ("silver", {| amount := lit 1; unit_ := Some "gram"; inr := lit 75 |});
   ("platinum", {| amount := lit 0.1; unit_ := Some "gram"; inr := lit 280 |});
   ("stablecoin", {| amount := lit 100; unit_ := Some "BINR"; inr := lit 100 |})].

(** [minimums[asset] || minimums.gold]: objects and functions are truthy,
    [undefined] is not. *)
Definition getMinimumAmounts (asset : string) : property Limits :=
  match get minimums asset with
  | Absent => get minimums "gold"
  | found => found
  end.

Definition baseMaximums : list (string * Limits) :=
  [("gold", {| amount := lit 1000; unit_ := Some "gram"; inr := lit 6000000 |});
   ("silver",
    {| amount := lit 50000; unit_ := Some "gram"; inr := lit 3750000 |});
   ("platinum",
    {| amount := lit 1000; unit_ := Some "gram"; inr := lit 2800000 |});
   ("stablecoin",
    {| amount := lit 10000000; unit_ := Some "BINR"; inr := lit 10000000 |})].

(** The user object; its [kycLevel] is an integer. *)
Record User : Type := {
  kycLevel : Z
}.

(** [levelMultipliers[user.kycLevel] || 0.1]. *)
Definition levelMultiplier (level : Z) : N :=
  match level with
  | 1%Z => lit 0.1
  | 2%Z => lit 0.5
  | 3%Z => lit 1.0
  | 4%Z => lit 2.0
  | _ => lit 0.1
  end.

(** Reading [baseMax.amount] throws a TypeError when [baseMax] is
    [undefined]; an inherited member has no [amount], [unit] or [inr], so
    these reads give [undefined] and the products are NaN. *)
Definition getMaximumAmounts (asset : string) (user : User)
  : completion Limits :=
  let baseMax := get baseMaximums asset in
  let multiplier := levelMultiplier (kycLevel user) in
  match baseMax with
  | Own b =>
      Normal {| amount := amount b * multiplier;
                unit_ := unit_ b;
                inr := inr b * multiplier |}
  | Inherited _ =>
      Normal {| amount := NaN * multiplier;
                unit_ := None;
                inr := NaN * multiplier |}
  | Absent => Throw TypeError
  end.

(** *** calculateSpread *)

Record Spread : Type := {
  bid : N;
  ask : N;
  mid : N;
  spread : N;
  spreadPercentage : N
}.

(** [spreadRate = 0.01] is a default parameter: [None] is the omitted (or
    [undefined]) argument. *)
Definition calculateSpread (marketPrice : N) (spreadRate : option N)
  : Spread :=
  let spreadRate' :=
    match spreadRate with Some rate => rate | None => lit 0.01 end in
  let bid' := marketPrice * (lit 1 - spreadRate') in
  let ask' := marketPrice * (lit 1 + spreadRate') in
  let mid' := marketPrice in
  {| bid := Math_round (bid' * lit 100) / lit 100;
     ask := Math_round (ask' * lit 100) / lit 100;
     mid := Math_round (mid' * lit 100) / lit 100;
     spread := Math_round ((ask' - bid') * lit 100) / lit 100;
     spreadPercentage := spreadRate' * lit 100 |}.

(** *** calculateGST *)

(** [gstRate = 0.18] is a default parameter. *)
Definition calculateGST (amount' : N) (gstRate : option N) : N :=
  let gstRate' :=
    match gstRate with Some rate => rate | None => lit 0.18 end in
  Math_round (amount' * gstRate' * lit 100) / lit 100.

(** *** calculateAnnualFees *)

(** A SIP plan, with the two fields the projection reads: [planAmount] is
    its [amount], [planFee] its [sipFee]. *)
Record SIPPlan : Type := {
  planAmount : N;
  planFee : N
}.

Record TradingFees : Type := {
  buy : N;
  sell : N;
  swap : N
}.

Record AnnualFees : Type := {
  annualSIPFees : N;
  projectedTradingFees : TradingFees;
  totalAnnualFees : N
}.

(** The body of the [forEach]: it updates the [buy] and [sell] fields of
    the object [projectedTradingFees] and leaves [swap]. *)
Definition projectPlan (fees : TradingFees) (plan : SIPPlan) : TradingFees :=
  let monthlyAmount := planAmount plan in
  let annualAmount := monthlyAmount * lit 12 in
  {| buy := buy fees + annualAmount * lit 0.01;
     sell := sell fees + annualAmount * lit 0.01;
     swap := swap fees |}.

Definition calculateAnnualFees (sipPlans : list SIPPlan) : AnnualFees :=
  let monthlySIPFees :=
    fold_left (fun sum plan => sum + planFee plan) sipPlans (lit 0) in
  let annualSIPFees' := monthlySIPFees * lit 12 in
  let projectedTradingFees' :=
    fold_left projectPlan sipPlans
      {| buy := lit 0; sell := lit 0; swap := lit 0 |} in
  let totalAnnualFees' :=
    annualSIPFees' + buy projectedTradingFees' + sell projectedTradingFees'
    + swap projectedTradingFees' in
  {| annualSIPFees := Math_round (annualSIPFees' * lit 100) / lit 100;
     projectedTradingFees :=
       {| buy := Math_round (buy projectedTradingFees' * lit 100) / lit 100;
          sell := Math_round (sell projectedTradingFees' * lit 100) / lit 100;
          swap := Math_round (swap projectedTradingFees' * lit 100) / lit 100 |};
     totalAnnualFees := Math_round (totalAnnualFees' * lit 100) / lit 100 |}.

End Fees.

Arguments FeeBreakdown N : clear implicits.
Arguments TradeParams N : clear implicits.
Arguments SwapFee N : clear implicits.
Arguments RedemptionFees N : clear implicits.
Arguments ProfitLoss N : clear implicits.
Arguments Holding N : clear implicits.
Arguments Allocation N : clear implicits.
Arguments Diversification N : clear implicits.
Arguments Limits N : clear implicits.
Arguments Spread N : clear implicits.
Arguments SIPPlan N : clear implicits.
Arguments TradingFees N : clear implicits.
Arguments AnnualFees N : clear implicits.

(** ** The properties of the specification, in its words *)

Section Specification.

Context {N : Type} `{JSNumber N}.

(** Following the specification (FeeBreakdown invariant, TradeFeeEngine
    steps 4 and 5): the GST and the total are recomputed from the rounded
    fields of the breakdown. *)
Definition roundedFieldsInvariant (b : FeeBreakdown N) : Prop :=
  gst b === round2 ((spreadFee b + platformFee b) * lit 0.18) /\
  totalFee b === round2 (spreadFee b + platformFee b + gst b).

(** Following the specification (SwapFeeSchedule): the tier table, as pairs
    of minNotional and rate. *)
Definition swapFeeTiers : list (N * N) :=
  [(lit 1000000, lit 0.001); (lit 500000, lit 0.002); (lit 100000, lit 0.003);
   (lit 50000, lit 0.004); (lit 0, lit 0.005)].

(** Following the specification: the selected tier is the one with the
    largest minNotional that is at most the notional value. *)
Definition selectedTier (notional : N) (tier : N * N) : Prop :=
  In tier swapFeeTiers /\
  (fst tier <=? notional) = true /\
  forall tier', In tier' swapFeeTiers ->
    (fst tier' <=? notional) = true -> (fst tier' <=? fst tier) = true.

(** Following the specification (PortfolioAnalyzer, contract B, step 1):
    the value of a holding is its balance times its current price; an
    asset without an entry has none. *)
Definition worth (portfolio : list (string * Holding N)) (a : string)
  : option N :=
  match own portfolio a with
  | Some h => Some (balance h * currentPrice h)
  | None => None
  end.

(** Following the specification (testable properties): the entire value
    of the portfolio, [v], is in the single asset [a]; every other asset
    has no entry or is worth zero. *)
Definition singleAsset (portfolio : list (string * Holding N)) (a : string)
  (v : N) : Prop :=
  In a assets /\ worth portfolio a = Some v /\
  forall b w, In b assets -> b <> a -> worth portfolio b = Some w ->
    w === lit 0.

(** Following the specification: four assets of the equal value [v]. *)
Definition equalValues (portfolio : list (string * Holding N)) (v : N)
  : Prop :=
  forall a, In a assets -> worth portfolio a = Some v.

End Specification.

(** ** The sign of a double *)

(** A double that is a number and has the sign [s] ([true] is negative);
    a zero has both signs. *)
Definition SFsigned (s : bool) (f : spec_float) : Prop :=
  match f with
  | S754_zero _ => True
  | S754_infinity s' => s' = s
  | S754_finite s' _ _ => s' = s
  | S754_nan => False
  end.

(** * Properties *)

Unset Implicit Arguments.

(** ** The number models *)

(** The literals of the module are read as Rocq reads decimal floats. *)
Example literals_binary64 :
  (lit 0.01 : float) = 0.01%float /\ (lit 0.001 : float) = 0.001%float /\
  (lit 0.18 : float) = 0.18%float /\ (lit 0.005 : float) = 0.005%float /\
  (lit 0.002 : float) = 0.002%float /\ (lit 0.003 : float) = 0.003%float /\
  (lit 0.004 : float) = 0.004%float /\ (lit 0.1 : float) = 0.1%float /\
  (lit 0.5 : float) = 0.5%float /\ (lit 1000000 : float) = 1000000%float /\
  (lit 999999.99 : float) = 999999.99%float.
Proof. vm_compute. repeat split. Qed.

(** [Math.round] on doubles: ties go up, also below zero. *)
Example Math_round_binary64 :
  Math_round 2.5%float = 3%float /\ Math_round (-2.5)%float = (-2)%float /\
  Math_round 0.49999999999999994%float = 0%float /\
  Math_round (-0.2)%float = neg_zero /\ Math_round 649%float = 649%float /\
  Math_round 4503599627370497%float = 4503599627370497%float /\
  Math_round 6.4899999999999993%float = 6%float /\
  Math_round nan = nan /\ Math_round infinity = infinity.
Proof. vm_compute. repeat split. Qed.


(** Multiplying a double by 1 returns it: the product of the mantissas is
    shifted back by the 52 bits of the mantissa of 1, exactly. *)
Lemma float_mul_one (x : float) : PrimFloat.mul x 1%float = x.
Proof.
  apply Prim2SF_inj. rewrite mul_spec.
  change (Prim2SF 1) with (S754_finite false 4503599627370496 (-52)).
  pose proof (Prim2SF_valid x) as Hv.
  destruct (Prim2SF x) as [s | s | | s m e].
  - destruct s; reflexivity.
  - destruct s; reflexivity.
  - reflexivity.
  - unfold valid_binary, bounded, canonical_mantissa in Hv.
    apply andb_prop in Hv. destruct Hv as [Hc He].
    apply Z.eqb_eq in Hc.
    unfold SF64mul, SFmul. rewrite xorb_false_r.
    rewrite (Pos.mul_comm m).
    set (m52 := (4503599627370496 * m)%positive).
    assert (Hd : Zdigits2 (Z.pos m52) = (Z.pos (digits2_pos m) + 52)%Z).
    { subst m52. cbn [Pos.mul Zdigits2 digits2_pos]. lia. }
    unfold binary_round_aux, shr_fexp.
    rewrite Hd.
    replace (Z.pos (digits2_pos m) + 52 + (e + -52))%Z
      with (Z.pos (digits2_pos m) + e)%Z by lia.
    rewrite Hc.
    replace (e - (e + -52))%Z with 52%Z by lia.
    subst m52. cbn [Pos.mul shr shr_record_of_loc iter_pos shr_1 orb].
    cbn [shr_m loc_of_shr_record round_nearest_even Zdigits2].
    replace (e + -52 + 52)%Z with e by lia.
    rewrite Hc, Z.sub_diag. cbn [shr shr_m]. rewrite He. reflexivity.
Qed.

(** ** calculateFees *)

(** C1, as stated, fails: for 5 units at price 1 the breakdown is 0.05,
    0.01, 0.01 with total 0.06, not round2 (0.05 + 0.01 + 0.01) = 0.07; for
    33 units at price 1 the GST is 0.07, not round2 (0.36 * 0.18) = 0.06.
    The code rounds each field from the unrounded intermediate values. *)
Lemma calculateFees_rounded_fields_counterexample :
  (lit 0 <? (lit 5 : float)) = true /\ (lit 0 <? (lit 1 : float)) = true /\
  (lit 0 <? (lit 33 : float)) = true /\
  ~ roundedFieldsInvariant (calculateFees "buy" "gold" (lit 5 : float) (lit 1)) /\
  ~ gst (calculateFees "buy" "gold" (lit 33 : float) (lit 1))
    === round2 ((spreadFee (calculateFees "buy" "gold" (lit 33 : float) (lit 1))
                 + platformFee (calculateFees "buy" "gold" (lit 33 : float) (lit 1)))
                * lit 0.18).
Proof.
  repeat split; try (vm_compute; reflexivity).
  - intros [_ Htotal]. vm_compute in Htotal. discriminate.
  - intros Hgst. vm_compute in Hgst. discriminate.
Qed.

(** The same input fails in exact arithmetic: the difference is not an
    effect of binary64. *)
Example calculateFees_rounded_fields_exact :
  calculateFees "buy" "gold" (lit 5 : exact) (lit 1) =
    {| spreadFee := Fin 0.05; platformFee := Fin 0.01; gst := Fin 0.01;
       totalFee := Fin 0.06;
       totalFeePercentage := Fin (6490000000000 # 5000000000000) |} /\
  ~ roundedFieldsInvariant (calculateFees "buy" "gold" (lit 5 : exact) (lit 1)).
Proof.
  split; [vm_compute; reflexivity |].
  intros [_ Htotal]. vm_compute in Htotal. discriminate.
Qed.

(** C1, amended: in every number model and for every input, each field of
    the breakdown is the rounding of its unrounded intermediate value: with
    s = principal * 0.01, p = principal * 0.001 and g = (s + p) * 0.18, the
    fields are round2 s, round2 p, round2 g and round2 (s + p + g). *)
Theorem calculateFees_fields_round_intermediates :
  forall (N : Type) (JS : JSNumber N) (type asset : string) (quantity midPrice : N),
    let principal := quantity * midPrice in
    let s := principal * lit 0.01 in
    let p := principal * lit 0.001 in
    let g := (s + p) * lit 0.18 in
    let b := calculateFees type asset quantity midPrice in
    spreadFee b = round2 s /\ platformFee b = round2 p /\
    gst b = round2 g /\ totalFee b = round2 (s + p + g).
Proof.
  intros N JS type asset quantity midPrice.
  unfold calculateFees, round2. cbn.
  destruct (String.eqb type "buy"); repeat split.
Qed.

(** C2, as stated, fails: a quantity of zero is not refused; the call
    returns a breakdown, and does not throw. *)
Lemma calculateFees_no_validation_counterexample :
  ((lit 0 : float) <=? lit 0) = true /\
  calculateFees_call
    (Some {| params_type := "buy"; params_asset := "gold";
             params_amount := lit 0 : float; params_marketPrice := lit 6000 |}) =
    Normal {| spreadFee := lit 0; platformFee := lit 0; gst := lit 0;
              totalFee := lit 0; totalFeePercentage := NaN |} /\
  forall e,
    calculateFees_call
      (Some {| params_type := "buy"; params_asset := "gold";
               params_amount := lit 0 : float; params_marketPrice := lit 6000 |})
    <> Throw e.
Proof.
  split; [vm_compute; reflexivity | split].
  - vm_compute. reflexivity.
  - intros e. discriminate.
Qed.

(** A negative quantity or a negative price is not refused either. *)
Example calculateFees_negative_quantity :
  calculateFees_call
    (Some {| params_type := "sell"; params_asset := "gold";
             params_amount := lit (-2) : float; params_marketPrice := lit 6000 |}) =
    Normal {| spreadFee := lit (-120); platformFee := lit (-12);
              gst := lit (-23.76); totalFee := lit (-155.76);
              totalFeePercentage := 1.2979999999999998%float |} /\
  calculateFees_call
    (Some {| params_type := "sell"; params_asset := "gold";
             params_amount := lit 2 : float; params_marketPrice := lit (-6000) |}) =
    Normal {| spreadFee := lit (-120); platformFee := lit (-12);
              gst := lit (-23.76); totalFee := lit (-155.76);
              totalFeePercentage := 1.2979999999999998%float |}.
Proof. split; vm_compute; reflexivity. Qed.

(** C2, amended: in every number model and for every argument object, also
    with quantity <= 0 or midPrice <= 0, the trade fee calculation does not
    fail: the call returns the breakdown whose fee fields are computed by
    the formulas used for positive inputs, from the quantity and the price
    alone. The one failure of a call is the TypeError of a call without an
    argument object; there is no InvalidTradeParameters. *)
Theorem calculateFees_call_not_validated :
  forall (N : Type) (JS : JSNumber N) (params : option (TradeParams N)),
    match params with
    | None => calculateFees_call params = Throw TypeError
    | Some p =>
        let principal := params_amount p * params_marketPrice p in
        let s := principal * lit 0.01 in
        let f := principal * lit 0.001 in
        let g := (s + f) * lit 0.18 in
        exists b,
          calculateFees_call params = Normal b /\
          spreadFee b = round2 s /\ platformFee b = round2 f /\
          gst b = round2 g /\ totalFee b = round2 (s + f + g)
    end.
Proof.
  intros N JS [p |]; [| reflexivity].
  cbv zeta. eexists. split; [reflexivity |].
  unfold calculateFees, round2. cbn.
  destruct (String.eqb (params_type p) "buy"); repeat split.
Qed.

(** ** calculateSwapFee *)

Ltac closed := vm_compute; first [reflexivity | discriminate].

Ltac in_list := cbv [In]; repeat first [left; reflexivity | right].

Ltac tier_cases Hin :=
  cbv [In swapFeeTiers] in Hin;
  destruct Hin as [<- | [<- | [<- | [<- | [<- | []]]]]]; cbv [fst snd] in *.

(** The tier [t0], whose test [Ht] succeeded after the tests of the higher
    tiers failed, is selected. *)
Ltac tier_selected t0 Ht :=
  exists t0; split; [unfold swapFeeTiers; in_list |];
  split; [exact Ht |];
  let t' := fresh "t'" in let Hin := fresh "Hin" in let Hle := fresh "Hle" in
  intros t' Hin Hle; tier_cases Hin; first [congruence | closed].

(** No other tier is selected. *)
Ltac tier_unique t0 Ht :=
  let tier := fresh "tier" in let Hin := fresh "Hin" in
  let Hle := fresh "Hle" in let Hmax := fresh "Hmax" in
  let Hm := fresh "Hm" in
  intros tier (Hin & Hle & Hmax);
  assert (Hm : (fst t0 <=? fst tier) = true)
    by (apply Hmax; [unfold swapFeeTiers; in_list | exact Ht]);
  tier_cases Hin;
  first [split; reflexivity | congruence | vm_compute in Hm; discriminate].

(** C3: over binary64, for every notional value >= 0 a tier is selected,
    the rate of the result is the rate of the selected tier and the fee is
    round2 (notional * rate); at 1000000 the rate is 0.001, at 999999.99 it
    is 0.002. *)
Theorem calculateSwapFee_selected_tier :
  forall notional : float,
    (lit 0 <=? notional) = true ->
    (exists tier, selectedTier notional tier) /\
    (forall tier, selectedTier notional tier ->
       percentage (calculateSwapFee notional) = snd tier /\
       fee (calculateSwapFee notional) = round2 (notional * snd tier)) /\
    percentage (calculateSwapFee (lit 1000000 : float)) = lit 0.001 /\
    percentage (calculateSwapFee (lit 999999.99 : float)) = lit 0.002.
Proof.
  intros x Hx.
  unfold calculateSwapFee, round2, selectedTier. cbn [percentage fee].
  destruct (lit 1000000 <=? x) eqn:H1;
    [| destruct (lit 500000 <=? x) eqn:H2;
       [| destruct (lit 100000 <=? x) eqn:H3;
          [| destruct (lit 50000 <=? x) eqn:H4]]].
  all: split; [| split; [| split; closed]].
  - tier_selected (lit 1000000 : float, lit 0.001 : float) H1.
  - tier_unique (lit 1000000 : float, lit 0.001 : float) H1.
  - tier_selected (lit 500000 : float, lit 0.002 : float) H2.
  - tier_unique (lit 500000 : float, lit 0.002 : float) H2.
  - tier_selected (lit 100000 : float, lit 0.003 : float) H3.
  - tier_unique (lit 100000 : float, lit 0.003 : float) H3.
  - tier_selected (lit 50000 : float, lit 0.004 : float) H4.
  - tier_unique (lit 50000 : float, lit 0.004 : float) H4.
  - tier_selected (lit 0 : float, lit 0.005 : float) Hx.
  - tier_unique (lit 0 : float, lit 0.005 : float) Hx.
Qed.

Lemma calculateSwapFee_selected_tier_witness :
  (lit 0 <=? (lit 75000 : float)) = true /\
  percentage (calculateSwapFee (lit 75000 : float)) = lit 0.004 /\
  fee (calculateSwapFee (lit 75000 : float)) = lit 300.
Proof.
  split; [vm_compute; reflexivity |].
  destruct (calculateSwapFee_selected_tier (lit 75000 : float))
    as [_ [Hrate _]]; [vm_compute; reflexivity |].
  destruct (Hrate (lit 50000, lit 0.004)) as [Hp Hf].
  - split; [unfold swapFeeTiers; in_list | split; [vm_compute; reflexivity |]].
    intros t' Hin Hle. tier_cases Hin; closed || (vm_compute in Hle; discriminate).
  - split; [exact Hp |]. rewrite Hf. vm_compute. reflexivity.
Defined.

(** The selection over the exact numbers, by the same case analysis. *)
Lemma calculateSwapFee_selected_tier_exact :
  forall notional : exact,
    (lit 0 <=? notional) = true ->
    (exists tier, selectedTier notional tier) /\
    (forall tier, selectedTier notional tier ->
       percentage (calculateSwapFee notional) = snd tier /\
       fee (calculateSwapFee notional) = round2 (notional * snd tier)).
Proof.
  intros x Hx.
  unfold calculateSwapFee, round2, selectedTier. cbn [percentage fee].
  destruct (lit 1000000 <=? x) eqn:H1;
    [| destruct (lit 500000 <=? x) eqn:H2;
       [| destruct (lit 100000 <=? x) eqn:H3;
          [| destruct (lit 50000 <=? x) eqn:H4]]].
  all: split.
  - tier_selected (lit 1000000 : exact, lit 0.001 : exact) H1.
  - tier_unique (lit 1000000 : exact, lit 0.001 : exact) H1.
  - tier_selected (lit 500000 : exact, lit 0.002 : exact) H2.
  - tier_unique (lit 500000 : exact, lit 0.002 : exact) H2.
  - tier_selected (lit 100000 : exact, lit 0.003 : exact) H3.
  - tier_unique (lit 100000 : exact, lit 0.003 : exact) H3.
  - tier_selected (lit 50000 : exact, lit 0.004 : exact) H4.
  - tier_unique (lit 50000 : exact, lit 0.004 : exact) H4.
  - tier_selected (lit 0 : exact, lit 0.005 : exact) Hx.
  - tier_unique (lit 0 : exact, lit 0.005 : exact) Hx.
Qed.

(** ** calculateRedemptionFees *)

(** C4: over binary64, 60 grams of silver delivered home are worth 4500
    and cost 200 + 22.5 + 45 = 267.5, leaving 4232.5; for every asset and
    quantity the home delivery fee is 50 up to 10 grams, 100 up to 50 grams
    and 200 otherwise. *)
Theorem calculateRedemptionFees_silver_home :
  forall (asset : string) (quantityGrams : float),
    (redemptionValue "silver" (lit 60 : float) = lit 4500 /\
     calculateRedemptionFees "silver" (lit 60 : float) "HOME" =
       {| deliveryFee := lit 200; insuranceFee := lit 22.5;
          processingFee := lit 45; totalFees := lit 267.5;
          netValue := lit 4232.5 |}) /\
    ((quantityGrams <=? lit 10) = true ->
       deliveryFee (calculateRedemptionFees asset quantityGrams "HOME") = lit 50) /\
    ((quantityGrams <=? lit 10) = false -> (quantityGrams <=? lit 50) = true ->
       deliveryFee (calculateRedemptionFees asset quantityGrams "HOME") = lit 100) /\
    ((quantityGrams <=? lit 10) = false -> (quantityGrams <=? lit 50) = false ->
       deliveryFee (calculateRedemptionFees asset quantityGrams "HOME") = lit 200).
Proof.
  intros asset q. split; [split; vm_compute; reflexivity |].
  unfold calculateRedemptionFees, redemptionDeliveryFee.
  cbv [deliveryFee String.eqb Ascii.eqb Bool.eqb].
  repeat split.
  - intros H10. rewrite H10. reflexivity.
  - intros H10 H50. rewrite H10, H50. reflexivity.
  - intros H10 H50. rewrite H10, H50. reflexivity.
Qed.

Lemma calculateRedemptionFees_silver_home_witness :
  ((lit 25 : float) <=? lit 10) = false /\ ((lit 25 : float) <=? lit 50) = true /\
  deliveryFee (calculateRedemptionFees "gold" (lit 25 : float) "HOME") = lit 100.
Proof.
  split; [vm_compute; reflexivity | split; [vm_compute; reflexivity |]].
  apply (calculateRedemptionFees_silver_home "gold" (lit 25)); vm_compute; reflexivity.
Defined.

(** ** calculateSIPFee *)

(** C7: over binary64, the monthly fee is 50, four weekly fees and thirty
    daily fees are 50, the weekly and daily fees are the unrounded quotients
    50 / 4 and 50 / 30, and every other frequency string gets the monthly
    fee of 50. The fee depends on the frequency alone: it is the only
    argument. *)
Theorem calculateSIPFee_frequencies :
  forall frequency : string,
    (calculateSIPFee "monthly" : float) = lit 50 /\
    (calculateSIPFee "weekly" : float) * lit 4 = lit 50 /\
    (calculateSIPFee "daily" : float) * lit 30 = lit 50 /\
    (calculateSIPFee "weekly" : float) = lit 50 / lit 4 /\
    (calculateSIPFee "daily" : float) = lit 50 / lit 30 /\
    (calculateSIPFee "daily" : float) <> round2 (lit 50 / lit 30) /\
    (frequency <> "daily" -> frequency <> "weekly" -> frequency <> "monthly" ->
       (calculateSIPFee frequency : float) = lit 50).
Proof.
  intros frequency.
  repeat (split; [vm_compute; first [reflexivity | discriminate] |]).
  intros Hd Hw Hm. unfold calculateSIPFee.
  destruct (String.eqb_spec frequency "daily"); [contradiction |].
  destruct (String.eqb_spec frequency "weekly"); [contradiction |].
  destruct (String.eqb_spec frequency "monthly"); [contradiction |].
  reflexivity.
Qed.

Lemma calculateSIPFee_frequencies_witness :
  (calculateSIPFee "yearly" : float) = lit 50.
Proof.
  apply (calculateSIPFee_frequencies "yearly"); discriminate.
Defined.

(** The same over the exact numbers: four weekly and thirty daily fees are
    exactly 50. *)
Lemma calculateSIPFee_frequencies_exact :
  (calculateSIPFee "monthly" : exact) === lit 50 /\
  (calculateSIPFee "weekly" : exact) * lit 4 === lit 50 /\
  (calculateSIPFee "daily" : exact) * lit 30 === lit 50.
Proof. repeat split; vm_compute; reflexivity. Qed.

(** ** calculateProfitLoss *)

(** C8, as stated, fails: for 3 invested and 4.001 of current value the
    profit field is 1, not 4.001 - 3, and the percentage field is 33.37,
    not (4.001 - 3) / 3 * 100. Both fields are rounded to two digits. *)
Lemma calculateProfitLoss_unrounded_counterexample :
  ((lit 3 : float) >? lit 0) = true /\
  profit (calculateProfitLoss (lit 3 : float) (lit 4.001)) = lit 1 /\
  (profit (calculateProfitLoss (lit 3 : float) (lit 4.001))
     =? lit 4.001 - lit 3) = false /\
  profitPercentage (calculateProfitLoss (lit 3 : float) (lit 4.001)) = lit 33.37 /\
  (profitPercentage (calculateProfitLoss (lit 3 : float) (lit 4.001))
     =? (lit 4.001 - lit 3) / lit 3 * lit 100) = false.
Proof. repeat split; vm_compute; reflexivity. Qed.

(** C8, amended: over binary64, for every invested amount and current
    value, profit is round2 (currentValue - invested), profitPercentage is
    round2 ((currentValue - invested) / invested * 100) when invested > 0 and
    0 otherwise, and isProfit tells whether the unrounded difference
    currentValue - invested is >= 0; profitLoss(0, 100) has percentage 0
    and profitLoss(100, 80) is not a profit. *)
Theorem calculateProfitLoss_rounded_fields :
  forall invested current : float,
    profit (calculateProfitLoss invested current) = round2 (current - invested) /\
    ((invested >? lit 0) = true ->
       profitPercentage (calculateProfitLoss invested current) =
         round2 ((current - invested) / invested * lit 100)) /\
    ((invested >? lit 0) = false ->
       profitPercentage (calculateProfitLoss invested current) = lit 0) /\
    isProfit (calculateProfitLoss invested current) = (current - invested >=? lit 0) /\
    profitPercentage (calculateProfitLoss (lit 0 : float) (lit 100)) = lit 0 /\
    isProfit (calculateProfitLoss (lit 100 : float) (lit 80)) = false.
Proof.
  intros invested current.
  unfold calculateProfitLoss, round2. cbv [profit profitPercentage isProfit].
  repeat split; try (vm_compute; reflexivity).
  - intros Hpos. rewrite Hpos. reflexivity.
  - intros Hpos. rewrite Hpos. vm_compute. reflexivity.
Qed.

Lemma calculateProfitLoss_rounded_fields_witness :
  ((lit 3 : float) >? lit 0) = true /\
  profitPercentage (calculateProfitLoss (lit 3 : float) (lit 4.001)) =
    round2 ((lit 4.001 - lit 3) / lit 3 * lit 100).
Proof.
  split; [vm_compute; reflexivity |].
  apply (calculateProfitLoss_rounded_fields (lit 3) (lit 4.001)).
  vm_compute. reflexivity.
Defined.

(** The sign test is on the unrounded difference: a loss below half a
    hundredth shows a profit field of zero and is not a profit. *)
Example calculateProfitLoss_small_loss :
  (profit (calculateProfitLoss (lit 100 : float) (lit 99.999)) >=? lit 0) = true /\
  isProfit (calculateProfitLoss (lit 100 : float) (lit 99.999)) = false.
Proof. split; vm_compute; reflexivity. Qed.

(** ** calculateFees in exact arithmetic *)

Lemma Qeq_bool_false (p q : Q) : ~ (p == q)%Q -> Qeq_bool p q = false.
Proof.
  intros Hne. destruct (Qeq_bool p q) eqn:E; [| reflexivity].
  apply Qeq_bool_iff in E. contradiction.
Qed.

(** C9: over the exact numbers, for every quantity > 0 and midPrice > 0
    and every trade type and asset, totalFeePercentage is 1.298. *)
Theorem calculateFees_totalFeePercentage_exact :
  forall (type asset : string) (quantity midPrice : Q),
    (0 < quantity)%Q -> (0 < midPrice)%Q ->
    totalFeePercentage (calculateFees type asset (Fin quantity) (Fin midPrice))
      === lit 1.298.
Proof.
  intros type asset q p Hq Hp.
  assert (Hqp : ~ (q * p == 0)%Q) by nra.
  unfold calculateFees. cbv [totalFeePercentage].
  destruct (String.eqb type "buy"); cbn;
    rewrite (Qeq_bool_false _ _ Hqp); cbn;
    apply Qeq_bool_iff; field; split; lra.
Qed.

Lemma calculateFees_totalFeePercentage_exact_witness :
  totalFeePercentage (calculateFees "buy" "gold" (Fin 2) (Fin 6000)) === lit 1.298.
Proof.
  apply (calculateFees_totalFeePercentage_exact "buy" "gold" 2 6000);
    reflexivity.
Defined.

(** On binary64 the percentage is the nearest double only up to the
    rounding of the six operations that produce it. *)
Example calculateFees_totalFeePercentage_binary64 :
  totalFeePercentage (calculateFees "buy" "gold" (lit 2 : float) (lit 6000))
    = 1.2979999999999998%float /\
  totalFeePercentage (calculateFees "buy" "gold" (lit 5 : float) (lit 1))
    = lit 1.298.
Proof. split; vm_compute; reflexivity. Qed.

(** The end-to-end example of the specification: 2 grams of gold at 6000. *)
Example calculateFees_two_grams_of_gold :
  calculateFees "buy" "gold" (lit 2 : float) (lit 6000) =
    {| spreadFee := lit 120; platformFee := lit 12; gst := lit 23.76;
       totalFee := lit 155.76; totalFeePercentage := 1.2979999999999998%float |}.
Proof. vm_compute. reflexivity. Qed.

(** ** Sums and quotients of doubles *)

(** What the diversification needs of binary64 arithmetic, from the
    specification of the operations in the standard library: a finite
    double divided by itself is 1, and the sum x + x + x + x, when it is
    finite, is four times x, so that x divided by it is a quarter. The
    second fact is not immediate: 3 x is rounded when x has 53 significant
    bits, and the rounding of 3 x + x undoes it. *)

(** The number of binary digits of a mantissa. *)
Lemma digits2_pos_range (p : positive) :
  (2 ^ (Z.pos (digits2_pos p) - 1) <= Z.pos p < 2 ^ Z.pos (digits2_pos p))%Z.
Proof.
  induction p as [p IH | p IH |]; cbn [digits2_pos].
  - rewrite Pos2Z.inj_succ.
    replace (Z.succ (Z.pos (digits2_pos p)) - 1)%Z
      with (Z.succ (Z.pos (digits2_pos p) - 1)) by lia.
    rewrite !Z.pow_succ_r by lia. lia.
  - rewrite Pos2Z.inj_succ.
    replace (Z.succ (Z.pos (digits2_pos p)) - 1)%Z
      with (Z.succ (Z.pos (digits2_pos p) - 1)) by lia.
    rewrite !Z.pow_succ_r by lia. lia.
  - cbn. lia.
Qed.

Lemma digits2_pos_unique (p : positive) (d : Z) :
  (2 ^ (d - 1) <= Z.pos p < 2 ^ d)%Z -> Z.pos (digits2_pos p) = d.
Proof.
  intros [Hl Hu]. pose proof (digits2_pos_range p) as [Hl' Hu'].
  assert (Hd : (0 < d)%Z).
  { destruct (Z.lt_ge_cases 0 d) as [|Hd0]; [assumption |].
    exfalso. destruct (Z.eq_dec d 0) as [-> | Hn]; [cbn in Hu; lia |].
    rewrite Z.pow_neg_r in Hu by lia. lia. }
  destruct (Z.lt_trichotomy (Z.pos (digits2_pos p)) d) as [Hlt | [Heq | Hgt]];
    [exfalso | assumption | exfalso].
  - assert (2 ^ Z.pos (digits2_pos p) <= 2 ^ (d - 1))%Z
      by (apply Z.pow_le_mono_r; lia).
    lia.
  - assert (2 ^ d <= 2 ^ (Z.pos (digits2_pos p) - 1))%Z
      by (apply Z.pow_le_mono_r; lia).
    lia.
Qed.

Lemma shl_align_value (m : positive) (e e' : Z) :
  (e' <= e)%Z ->
  Z.pos (fst (shl_align m e e')) = (Z.pos m * 2 ^ (e - e'))%Z.
Proof.
  intros Hle. unfold shl_align.
  destruct (e' - e)%Z as [| d | d] eqn:Hd; cbn [fst].
  - replace (e - e')%Z with 0%Z by lia. cbn. lia.
  - lia.
  - replace (e - e')%Z with (Z.pos d) by lia.
    rewrite (Pos.iter_swap_gen _ _ Z.pos xO (Z.mul 2)) by reflexivity.
    change (Pos.iter (Z.mul 2) (Z.pos m) d) with (Z.shiftl (Z.pos m) (Z.pos d)).
    rewrite Z.shiftl_mul_pow2 by lia. reflexivity.
Qed.

Lemma fexp_binary64 (x : Z) : fexp prec emax x = Z.max (x - 53) (-1074).
Proof. reflexivity. Qed.

Lemma shr_fexp_none (c : positive) (E : Z) :
  (Z.pos (digits2_pos c) <= 53)%Z -> (-1074 <= E)%Z ->
  shr_fexp prec emax (Z.pos c) E loc_Exact =
    ({| shr_m := Z.pos c; shr_r := false; shr_s := false |}, E).
Proof.
  intros Hd HE. unfold shr_fexp, shr. cbn [Zdigits2 shr_record_of_loc].
  rewrite fexp_binary64.
  destruct (Z.max (Z.pos (digits2_pos c) + E - 53) (-1074) - E)%Z eqn:Hs;
    [reflexivity | lia | reflexivity].
Qed.

Lemma shr_fexp_shift (M : positive) (E : Z) (k : positive) :
  (Z.pos (digits2_pos M) = 53 + Z.pos k)%Z -> (-1074 <= E)%Z ->
  shr_fexp prec emax (Z.pos M) E loc_Exact =
    (iter_pos shr_1 k {| shr_m := Z.pos M; shr_r := false; shr_s := false |},
     (E + Z.pos k)%Z).
Proof.
  intros Hd HE. unfold shr_fexp, shr. cbn [Zdigits2 shr_record_of_loc].
  rewrite fexp_binary64, Hd.
  replace (Z.max (53 + Z.pos k + E - 53) (-1074) - E)%Z with (Z.pos k) by lia.
  reflexivity.
Qed.

(** The second normalisation of [binary_round_aux], on a mantissa that
    has 53 digits or is 2^53. *)
Lemma binary_round_aux_tail (s : bool) (c : positive) (E : Z) :
  (Z.pos (digits2_pos c) <= 53 \/ Z.pos c = 2 ^ 53)%Z -> (-1074 <= E)%Z ->
  exists (R : positive) (e' : Z),
    (let '(mrs'', e'') := shr_fexp prec emax (Z.pos c) E loc_Exact in
     match shr_m mrs'' with
     | Z0 => S754_zero s
     | Zpos m =>
         if Z.leb e'' (Z.sub emax prec) then S754_finite s m e''
         else S754_infinity s
     | _ => S754_nan
     end) = (if (e' <=? 971)%Z then S754_finite s R e' else S754_infinity s) /\
    (e' = E \/ e' = E + 1 /\ Z.pos R = 2 ^ 52)%Z /\
    (Z.pos R * 2 ^ (e' - E) = Z.pos c)%Z.
Proof.
  intros [Hd | Hc] HE.
  - rewrite shr_fexp_none by assumption. cbn [shr_m].
    exists c, E. split; [reflexivity | split; [left; reflexivity |]].
    rewrite Z.sub_diag. cbn. lia.
  - assert (Hc' : c = 9007199254740992%positive) by (cbn in Hc; lia).
    subst c. rewrite (shr_fexp_shift _ E 1) by (cbn; lia || assumption).
    cbn [iter_pos shr_1 orb shr_m].
    exists 4503599627370496%positive, (E + 1)%Z.
    split; [reflexivity | split; [right; split; reflexivity |]].
    replace (E + 1 - E)%Z with 1%Z by lia. reflexivity.
Qed.

Lemma even_succ_of_odd (z : Z) : Z.even z = false -> Z.even (z + 1) = true.
Proof.
  intros H. rewrite Z.add_1_r, Z.even_succ, <- Z.negb_even, H. reflexivity.
Qed.

(** Rounding to nearest, ties to even, of a mantissa that is at most two
    digits too long: the result is [c * 2^k], the multiple of [2^k] nearest
    to [M]. *)
Lemma binary_round_aux_nearest (s : bool) (M : positive) (E k : Z) :
  (-1074 <= E)%Z ->
  (k = 0 /\ Z.pos (digits2_pos M) <= 53 \/
   1 <= k <= 2 /\ Z.pos (digits2_pos M) = 53 + k)%Z ->
  exists (R : positive) (e' c : Z),
    binary_round_aux prec emax s (Z.pos M) E loc_Exact =
      (if (e' <=? 971)%Z then S754_finite s R e' else S754_infinity s) /\
    (e' = E + k \/ e' = E + k + 1 /\ Z.pos R = 2 ^ 52)%Z /\
    (Z.pos R * 2 ^ (e' - E) = 2 ^ k * c)%Z /\
    (Z.abs (2 ^ k * c - Z.pos M) <= 2 ^ (k - 1))%Z /\
    (2 * Z.abs (2 ^ k * c - Z.pos M) = 2 ^ k -> Z.even c = true)%Z.
Proof.
  intros HE [[-> Hd] | [Hk Hd]].
  - unfold binary_round_aux. rewrite shr_fexp_none by assumption.
    cbn [shr_m loc_of_shr_record round_nearest_even].
    destruct (binary_round_aux_tail s M E (or_introl Hd) HE)
      as (R & e' & Hres & He' & HV).
    exists R, e', (Z.pos M). split; [exact Hres |].
    rewrite Z.add_0_r. split; [exact He' |].
    change (2 ^ 0)%Z with 1%Z. change (2 ^ (0 - 1))%Z with 0%Z.
    repeat split; lia.
  - assert (Hk' : k = 1%Z \/ k = 2%Z) by lia.
    pose proof (digits2_pos_range M) as HM. rewrite Hd in HM.
    destruct Hk' as [-> | ->].
    + (* one digit is dropped *)
      change (2 ^ (53 + 1 - 1))%Z with (2 ^ 53)%Z in HM.
      change (2 ^ (53 + 1))%Z with (2 ^ 54)%Z in HM.
      unfold binary_round_aux.
      rewrite (shr_fexp_shift M E 1) by assumption.
      assert (Htail : forall c : positive,
                 (2 ^ 52 <= Z.pos c <= 2 ^ 53)%Z ->
                 (Z.pos (digits2_pos c) <= 53 \/ Z.pos c = 2 ^ 53)%Z).
      { intros c Hc. destruct (Z.eq_dec (Z.pos c) (2 ^ 53)) as [|Hn];
          [right; assumption | left].
        rewrite (digits2_pos_unique c 53); [lia |].
        change (2 ^ (53 - 1))%Z with (2 ^ 52)%Z. lia. }
      destruct M as [p | p |]; [| | cbn in Hd; lia];
        cbn [iter_pos shr_1 orb shr_m loc_of_shr_record round_nearest_even].
      * destruct (Z.even (Z.pos p)) eqn:Hev.
        -- destruct (binary_round_aux_tail s p (E + 1)) as (R & e' & Hres & He' & HV);
             [apply Htail; lia | lia |].
           exists R, e', (Z.pos p). split; [exact Hres |].
           split; [lia |]. split.
           { replace (e' - E)%Z with (e' - (E + 1) + 1)%Z by lia.
             rewrite Z.pow_add_r by lia. change (2 ^ 1)%Z with 2%Z. lia. }
           change (2 ^ 1)%Z with 2%Z. change (2 ^ (1 - 1))%Z with 1%Z.
           split; [lia | intros _; exact Hev].
        -- change (Z.pos p + 1)%Z with (Z.pos (p + 1)).
           destruct (binary_round_aux_tail s (p + 1) (E + 1)) as (R & e' & Hres & He' & HV);
             [apply Htail; lia | lia |].
           exists R, e', (Z.pos p + 1)%Z. split; [exact Hres |].
           split; [lia |]. split.
           { replace (e' - E)%Z with (e' - (E + 1) + 1)%Z by lia.
             rewrite Z.pow_add_r by lia. change (2 ^ 1)%Z with 2%Z. lia. }
           change (2 ^ 1)%Z with 2%Z. change (2 ^ (1 - 1))%Z with 1%Z.
           split; [lia | intros _; apply even_succ_of_odd; exact Hev].
      * destruct (binary_round_aux_tail s p (E + 1)) as (R & e' & Hres & He' & HV);
          [apply Htail; lia | lia |].
        exists R, e', (Z.pos p). split; [exact Hres |].
        split; [lia |]. split.
        { replace (e' - E)%Z with (e' - (E + 1) + 1)%Z by lia.
          rewrite Z.pow_add_r by lia. change (2 ^ 1)%Z with 2%Z. lia. }
        change (2 ^ 1)%Z with 2%Z. change (2 ^ (1 - 1))%Z with 1%Z.
        split; [lia | lia].
    + (* two digits are dropped *)
      change (2 ^ (53 + 2 - 1))%Z with (2 ^ 54)%Z in HM.
      change (2 ^ (53 + 2))%Z with (2 ^ 55)%Z in HM.
      unfold binary_round_aux.
      rewrite (shr_fexp_shift M E 2) by assumption.
      assert (Htail : forall c : positive,
                 (2 ^ 52 <= Z.pos c <= 2 ^ 53)%Z ->
                 (Z.pos (digits2_pos c) <= 53 \/ Z.pos c = 2 ^ 53)%Z).
      { intros c Hc. destruct (Z.eq_dec (Z.pos c) (2 ^ 53)) as [|Hn];
          [right; assumption | left].
        rewrite (digits2_pos_unique c 53); [lia |].
        change (2 ^ (53 - 1))%Z with (2 ^ 52)%Z. lia. }
      assert (Hfin : forall c : positive,
                 (2 ^ 52 <= Z.pos c <= 2 ^ 53)%Z ->
                 (Z.abs (4 * Z.pos c - Z.pos M) <= 2)%Z ->
                 (2 * Z.abs (4 * Z.pos c - Z.pos M) = 4 -> Z.even (Z.pos c) = true)%Z ->
                 exists (R : positive) (e' c0 : Z),
                   (let '(mrs'', e'') := shr_fexp prec emax (Z.pos c) (E + 2) loc_Exact in
                    match shr_m mrs'' with
                    | Z0 => S754_zero s
                    | Zpos m =>
                        if Z.leb e'' (Z.sub emax prec) then S754_finite s m e''
                        else S754_infinity s
                    | _ => S754_nan
                    end) = (if (e' <=? 971)%Z then S754_finite s R e' else S754_infinity s) /\
                   (e' = E + 2 \/ e' = E + 2 + 1 /\ Z.pos R = 2 ^ 52)%Z /\
                   (Z.pos R * 2 ^ (e' - E) = 2 ^ 2 * c0)%Z /\
                   (Z.abs (2 ^ 2 * c0 - Z.pos M) <= 2 ^ (2 - 1))%Z /\
                   (2 * Z.abs (2 ^ 2 * c0 - Z.pos M) = 2 ^ 2 -> Z.even c0 = true)%Z).
      { intros c Hc Habs Htie.
        destruct (binary_round_aux_tail s c (E + 2)) as (R & e' & Hres & He' & HV);
          [apply Htail; lia | lia |].
        exists R, e', (Z.pos c). split; [exact Hres |].
        split; [lia |]. split.
        { replace (e' - E)%Z with (e' - (E + 2) + 2)%Z by lia.
          rewrite Z.pow_add_r by lia. change (2 ^ 2)%Z with 4%Z. lia. }
        change (2 ^ 2)%Z with 4%Z. change (2 ^ (2 - 1))%Z with 2%Z.
        split; assumption. }
      destruct M as [[p | p |] | [p | p |] |]; try (cbn in Hd; lia);
        cbn [iter_pos shr_1 orb shr_m loc_of_shr_record round_nearest_even].
      * change (Z.pos p + 1)%Z with (Z.pos (p + 1)).
        apply Hfin; lia.
      * apply Hfin; lia.
      * destruct (Z.even (Z.pos p)) eqn:Hev.
        -- apply Hfin; [lia | lia | intros _; exact Hev].
        -- change (Z.pos p + 1)%Z with (Z.pos (p + 1)).
           apply Hfin; [lia | lia |].
           intros _. apply (even_succ_of_odd (Z.pos p)). exact Hev.
      * apply Hfin; lia.
Qed.

Lemma digits2_pos_le (p : positive) (d : Z) :
  (0 <= d)%Z -> (Z.pos p < 2 ^ d)%Z -> (Z.pos (digits2_pos p) <= d)%Z.
Proof.
  intros Hd Hp. pose proof (digits2_pos_range p) as [Hl _].
  destruct (Z.le_gt_cases (Z.pos (digits2_pos p)) d) as [|Hgt]; [assumption |].
  assert (2 ^ d <= 2 ^ (Z.pos (digits2_pos p) - 1))%Z
    by (apply Z.pow_le_mono_r; lia).
  lia.
Qed.

Lemma digits2_pos_ge (p : positive) (d : Z) :
  (2 ^ (d - 1) <= Z.pos p)%Z -> (d <= Z.pos (digits2_pos p))%Z.
Proof.
  intros Hp. pose proof (digits2_pos_range p) as [_ Hu].
  destruct (Z.le_gt_cases d (Z.pos (digits2_pos p))) as [|Hgt]; [assumption |].
  assert (2 ^ Z.pos (digits2_pos p) <= 2 ^ (d - 1))%Z
    by (apply Z.pow_le_mono_r; lia).
  lia.
Qed.

(** The sum of two doubles of the same sign, aligned at the smaller
    exponent [ey], is the multiple [c * 2^k] nearest to the exact sum [M]
    of the mantissas (ties to an even [c]), or an infinity. *)
Lemma SFadd_nearest (s : bool) (mx my : positive) (ex ey M : Z) :
  M = (Z.pos mx * 2 ^ (ex - ey) + Z.pos my)%Z ->
  (-1074 <= ey <= ex)%Z ->
  (ey = -1074 \/ 2 ^ 52 <= M)%Z -> (M < 2 ^ 55)%Z ->
  exists (R : positive) (j c k : Z),
    SFadd prec emax (S754_finite s mx ex) (S754_finite s my ey) =
      (if (ey + j <=? 971)%Z then S754_finite s R (ey + j) else S754_infinity s) /\
    (0 <= k <= 2)%Z /\
    (j = k \/ j = k + 1 /\ Z.pos R = 2 ^ 52)%Z /\
    (Z.pos R * 2 ^ j = 2 ^ k * c)%Z /\
    (Z.abs (2 ^ k * c - M) <= 2 ^ (k - 1))%Z /\
    (2 * Z.abs (2 ^ k * c - M) = 2 ^ k -> Z.even c = true)%Z /\
    (k = 0 /\ M < 2 ^ 53 \/ 1 <= k /\ 2 ^ (52 + k) <= M < 2 ^ (53 + k))%Z.
Proof.
  intros HMdef He Hlow Hup.
  unfold SFadd. rewrite Z.min_r by lia.
  pose proof (shl_align_value mx ex ey (proj2 He)) as Ha.
  pose proof (shl_align_value my ey ey (Z.le_refl ey)) as Hb.
  rewrite Z.sub_diag in Hb. change (2 ^ 0)%Z with 1%Z in Hb.
  set (a := fst (shl_align mx ex ey)) in *.
  set (b := fst (shl_align my ey ey)) in *.
  assert (HM : Z.pos (a + b) = M) by lia.
  assert (Hround : binary_normalize prec emax
                     (cond_Zopp s (Z.pos a) + cond_Zopp s (Z.pos b)) ey false =
                   binary_round prec emax s (a + b) ey)
    by (destruct s; reflexivity).
  rewrite Hround. clearbody a b. clear Hround Ha Hb.
  set (D := Z.pos (digits2_pos (a + b))).
  pose proof (digits2_pos_range (a + b)) as HD. fold D in HD.
  assert (HD55 : (D <= 55)%Z) by (apply digits2_pos_le; lia).
  assert (HD53 : (ey = -1074 \/ 53 <= D)%Z).
  { destruct Hlow as [|Hlow]; [left; assumption | right].
    apply digits2_pos_ge. change (2 ^ (53 - 1))%Z with (2 ^ 52)%Z. lia. }
  assert (HDpos : (0 < D)%Z) by (subst D; lia).
  unfold binary_round. fold D. rewrite fexp_binary64.
  assert (Hshl : shl_align (a + b) ey (Z.max (D + ey - 53) (-1074)) = ((a + b)%positive, ey)).
  { unfold shl_align.
    destruct (Z.max (D + ey - 53) (-1074) - ey)%Z eqn:Hs; [reflexivity | reflexivity | lia]. }
  rewrite Hshl.
  destruct (binary_round_aux_nearest s (a + b) ey (Z.max (D - 53) 0))
    as (R & e' & c & Hres & He' & HV & Habs & Htie); [lia | fold D; lia |].
  set (k := Z.max (D - 53) 0) in *.
  exists R, (e' - ey)%Z, c, k.
  replace (ey + (e' - ey))%Z with e' by lia.
  split; [exact Hres |]. split; [lia |]. split; [lia |].
  split; [exact HV |]. rewrite <- HM. split; [exact Habs |].
  split; [exact Htie |].
  destruct (Z.le_gt_cases D 53) as [Hle | Hgt].
  - left. split; [lia |].
    assert (2 ^ D <= 2 ^ 53)%Z by (apply Z.pow_le_mono_r; lia). lia.
  - right. split; [lia |].
    replace (52 + k)%Z with (D - 1)%Z by lia.
    replace (53 + k)%Z with D by lia. exact HD.
Qed.

Ltac split_shift k :=
  let H := fresh in
  assert (H : k = 0%Z \/ k = 1%Z \/ k = 2%Z) by lia;
  destruct H as [-> | [-> | ->]].

Ltac split_tie Htie :=
  match type of Htie with
  | ?a = ?b -> Z.even ?c = true =>
      let Hq := fresh "Hq" in
      let b' := fresh "b" in
      destruct (Z.eq_dec a b) as [Hq | Hq];
      [apply Htie in Hq; apply Z.even_spec in Hq; destruct Hq as [b' Hq] |];
      clear Htie
  end.

Ltac pow2_consts :=
  change (2 ^ 0)%Z with 1%Z in *; change (2 ^ 1)%Z with 2%Z in *;
  change (2 ^ 2)%Z with 4%Z in *; change (2 ^ 3)%Z with 8%Z in *;
  change (2 ^ (0 + 1))%Z with 2%Z in *; change (2 ^ (1 + 1))%Z with 4%Z in *;
  change (2 ^ (2 + 1))%Z with 8%Z in *;
  change (2 ^ (0 - 1))%Z with 0%Z in *; change (2 ^ (1 - 1))%Z with 1%Z in *;
  change (2 ^ (2 - 1))%Z with 2%Z in *;
  change (2 ^ (52 + 1))%Z with (2 ^ 53)%Z in *;
  change (2 ^ (52 + 2))%Z with (2 ^ 54)%Z in *;
  change (2 ^ (53 + 1))%Z with (2 ^ 54)%Z in *;
  change (2 ^ (53 + 2))%Z with (2 ^ 55)%Z in *.

(** Adding a double to itself four times gives four times the double,
    unless a sum overflows: the roundings of 3 x and of 3 x + x cancel. *)
Lemma SFadd_sum4 (s : bool) (m : positive) (e : Z) :
  valid_binary (S754_finite s m e) = true ->
  SF64add (SF64add (SF64add (S754_finite s m e) (S754_finite s m e))
             (S754_finite s m e)) (S754_finite s m e) = S754_infinity s \/
  exists (R : positive) (j : Z),
    SF64add (SF64add (SF64add (S754_finite s m e) (S754_finite s m e))
               (S754_finite s m e)) (S754_finite s m e) = S754_finite s R (e + j) /\
    (0 <= j)%Z /\ (Z.pos R * 2 ^ j = 4 * Z.pos m)%Z.
Proof.
  intros Hv. unfold SF64add.
  unfold valid_binary, bounded, canonical_mantissa in Hv.
  apply andb_prop in Hv. destruct Hv as [Hc _].
  apply Z.eqb_eq in Hc. rewrite fexp_binary64 in Hc.
  pose proof (digits2_pos_range m) as Hm.
  set (d := Z.pos (digits2_pos m)) in *.
  assert (Hm53 : (Z.pos m < 2 ^ 53)%Z).
  { assert (2 ^ d <= 2 ^ 53)%Z by (apply Z.pow_le_mono_r; lia). lia. }
  assert (Hlow : (e = -1074 \/ 2 ^ 52 <= Z.pos m)%Z).
  { destruct (Z.eq_dec e (-1074)) as [|Hn]; [left; assumption | right].
    replace (d - 1)%Z with 52%Z in Hm by lia. lia. }
  assert (He : (-1074 <= e)%Z) by lia.
  clearbody d. clear Hc Hm d.
  (* x + x *)
  destruct (SFadd_nearest s m m e e (2 * Z.pos m))
    as (R2 & j2 & c2 & k2 & H2 & Hk2 & Hj2 & HV2 & Habs2 & Htie2 & Hr2);
    [rewrite Z.sub_diag; lia | lia | lia | lia |].
  assert (HR2 : (Z.pos R2 * 2 ^ j2 = 2 * Z.pos m)%Z).
  { rewrite HV2. clear HV2 Hj2 H2.
    split_shift k2; pow2_consts; lia. }
  assert (Hj2' : (0 <= j2 <= 3)%Z) by lia.
  rewrite H2. clear H2 HV2 Habs2 Htie2 Hr2 Hj2 Hk2 c2 k2.
  destruct (e + j2 <=? 971)%Z; [| left; reflexivity].
  (* (x + x) + x *)
  destruct (SFadd_nearest s R2 m (e + j2) e (3 * Z.pos m))
    as (R3 & j3 & c3 & k3 & H3 & Hk3 & Hj3 & HV3 & Habs3 & Htie3 & Hr3);
    [replace (e + j2 - e)%Z with j2 by lia; lia | lia | lia | lia |].
  rewrite H3. clear H3.
  destruct (e + j3 <=? 971)%Z; [| left; reflexivity].
  assert (Hj3' : (0 <= j3 <= 3)%Z) by lia.
  (* ((x + x) + x) + x *)
  destruct (SFadd_nearest s R3 m (e + j3) e (2 ^ k3 * c3 + Z.pos m))
    as (R4 & j4 & c4 & k4 & H4 & Hk4 & Hj4 & HV4 & Habs4 & Htie4 & Hr4);
    [replace (e + j3 - e)%Z with j3 by lia; lia | lia
     | clear Htie3 HV3 Hj3; split_shift k3; pow2_consts; lia
     | clear Htie3 HV3 Hj3; split_shift k3; pow2_consts; lia |].
  rewrite H4. clear H4.
  assert (HR4 : (Z.pos R4 * 2 ^ j4 = 4 * Z.pos m)%Z).
  { rewrite HV4. clear HV4 Hj4 HV3 Hj3 HR2.
    split_shift k3; split_shift k4; pow2_consts;
      split_tie Htie3; split_tie Htie4; lia. }
  destruct (e + j4 <=? 971)%Z; [right | left; reflexivity].
  exists R4, j4. split; [reflexivity | split; [lia | exact HR4]].
Qed.

Lemma digits2_pos_scaled (a b : positive) (j t : Z) :
  (0 <= j)%Z -> (0 <= t)%Z -> (Z.pos a * 2 ^ j = 2 ^ t * Z.pos b)%Z ->
  (Z.pos (digits2_pos a) + j = Z.pos (digits2_pos b) + t)%Z.
Proof.
  intros Hj Ht Hab.
  pose proof (digits2_pos_range a) as [Hal Hau].
  pose proof (digits2_pos_range b) as [Hbl Hbu].
  set (da := Z.pos (digits2_pos a)) in *. set (db := Z.pos (digits2_pos b)) in *.
  assert (Hda : (0 < da)%Z) by (subst da; lia).
  assert (Hdb : (0 < db)%Z) by (subst db; lia).
  assert (Hpj : (0 < 2 ^ j)%Z) by (apply Z.pow_pos_nonneg; lia).
  assert (Hpt : (0 < 2 ^ t)%Z) by (apply Z.pow_pos_nonneg; lia).
  assert (Ha1 : (2 ^ (da - 1 + j) <= Z.pos a * 2 ^ j)%Z).
  { rewrite Z.pow_add_r by lia. apply Z.mul_le_mono_nonneg_r; lia. }
  assert (Ha2 : (Z.pos a * 2 ^ j < 2 ^ (da + j))%Z).
  { rewrite Z.pow_add_r by lia. apply Z.mul_lt_mono_pos_r; lia. }
  assert (Hb1 : (2 ^ (db - 1 + t) <= 2 ^ t * Z.pos b)%Z).
  { rewrite Z.pow_add_r by lia. rewrite (Z.mul_comm (2 ^ t)).
    apply Z.mul_le_mono_nonneg_r; lia. }
  assert (Hb2 : (2 ^ t * Z.pos b < 2 ^ (db + t))%Z).
  { rewrite Z.pow_add_r by lia. rewrite (Z.mul_comm (2 ^ t)).
    apply Z.mul_lt_mono_pos_r; lia. }
  destruct (Z.lt_trichotomy (da + j) (db + t)) as [Hlt | [Heq | Hgt]];
    [exfalso | assumption | exfalso].
  - assert (2 ^ (da + j) <= 2 ^ (db - 1 + t))%Z by (apply Z.pow_le_mono_r; lia).
    lia.
  - assert (2 ^ (db + t) <= 2 ^ (da - 1 + j))%Z by (apply Z.pow_le_mono_r; lia).
    lia.
Qed.

Lemma Z_div_eucl_mul (q b : Z) : (0 < b)%Z -> Z.div_eucl (q * b) b = (q, 0%Z).
Proof.
  intros Hb. destruct (Z.div_eucl (q * b) b) as [q' r'] eqn:Hde.
  assert (Hq : q' = (q * b / b)%Z) by (unfold Z.div; rewrite Hde; reflexivity).
  assert (Hr : r' = ((q * b) mod b)%Z) by (unfold Z.modulo; rewrite Hde; reflexivity).
  rewrite Z.div_mul in Hq by lia. rewrite Z.mod_mul in Hr by lia.
  subst. reflexivity.
Qed.

(** The quotient of two doubles whose exact ratio is [2^(-t)]. *)
Lemma SFdiv_pow2 (s : bool) (m R : positive) (e j t : Z) :
  (Z.pos (digits2_pos m) <= 53)%Z -> (0 <= j)%Z -> (0 <= t <= 1021)%Z ->
  (Z.pos R * 2 ^ j = 2 ^ t * Z.pos m)%Z ->
  SFdiv prec emax (S754_finite s m e) (S754_finite s R (e + j)) =
    binary_round_aux prec emax false (2 ^ 53) (- t - 53) loc_Exact.
Proof.
  intros Hd Hj Ht HR.
  pose proof (digits2_pos_scaled R m j t Hj (proj1 Ht) HR) as Hdig.
  unfold SFdiv, SFdiv_core_binary. cbn [Zdigits2].
  rewrite fexp_binary64.
  replace (Z.pos (digits2_pos m) + e - (Z.pos (digits2_pos R) + (e + j)))%Z
    with (- t)%Z by lia.
  rewrite Z.max_l by lia.
  replace (e - (e + j))%Z with (- j)%Z by lia.
  rewrite Z.min_l by lia.
  destruct (- j - (- t - 53))%Z as [| p | p] eqn:Hs; [lia | | lia].
  rewrite Z.shiftl_mul_pow2 by lia.
  assert (Hm : (Z.pos m * 2 ^ Z.pos p = 2 ^ 53 * Z.pos R)%Z).
  { assert (Hpj : (0 < 2 ^ j)%Z) by (apply Z.pow_pos_nonneg; lia).
    apply (Z.mul_cancel_r _ _ (2 ^ j)); [lia |].
    rewrite <- Z.mul_assoc, <- Z.pow_add_r by lia.
    replace (Z.pos p + j)%Z with (53 + t)%Z by lia.
    rewrite Z.pow_add_r by lia.
    rewrite <- (Z.mul_assoc (2 ^ 53)), HR. ring. }
  rewrite Hm, Z_div_eucl_mul by lia.
  rewrite xorb_nilpotent.
  assert (Hloc : new_location (Z.pos R) 0 = loc_Exact).
  { unfold new_location. destruct (Z.even (Z.pos R)); reflexivity. }
  rewrite Hloc. reflexivity.
Qed.

(** A finite double other than zero has a sign, a mantissa and an
    exponent. *)
Lemma float_finite_nonzero (v : float) :
  is_finite v = true -> (v =? lit 0) = false ->
  exists (s : bool) (m : positive) (e : Z), Prim2SF v = S754_finite s m e.
Proof.
  unfold is_finite, is_nan, is_infinity. cbn [seq float_number].
  rewrite !eqb_spec, abs_spec.
  change (Prim2SF infinity) with (S754_infinity false).
  change (Prim2SF (float_lit 0)) with (S754_zero false).
  destruct (Prim2SF v) as [s | s | | s m e];
    try (destruct s; cbn; intros H1 H2; discriminate).
  - cbn. intros H1 H2. discriminate.
  - intros _ _. exists s, m, e. reflexivity.
Qed.

Lemma float_finite_truthy (v : float) (s : bool) (m : positive) (e : Z) :
  Prim2SF v = S754_finite s m e ->
  (v =? lit 0) = false /\ truthy v = true.
Proof.
  intros Hv. unfold truthy. cbn [seq float_number].
  rewrite !eqb_spec, Hv.
  change (Prim2SF (float_lit 0)) with (S754_zero false).
  unfold SFeqb, SFcompare.
  rewrite Z.compare_refl, Pos.compare_cont_refl.
  destruct s; split; reflexivity.
Qed.

Lemma float_add_zero_l (v : float) (s : bool) (m : positive) (e : Z) :
  Prim2SF v = S754_finite s m e -> lit 0 + v = v.
Proof.
  intros Hv. apply Prim2SF_inj. cbn [add float_number lit].
  rewrite add_spec, Hv.
  change (Prim2SF (float_lit 0)) with (S754_zero false). reflexivity.
Qed.

Lemma float_add_zero_r (v : float) (s : bool) (m : positive) (e : Z) :
  Prim2SF v = S754_finite s m e -> v + lit 0 = v.
Proof.
  intros Hv. apply Prim2SF_inj. cbn [add float_number lit].
  rewrite add_spec, Hv.
  change (Prim2SF (float_lit 0)) with (S754_zero false). reflexivity.
Qed.

Lemma float_valid_digits (v : float) (s : bool) (m : positive) (e : Z) :
  Prim2SF v = S754_finite s m e -> (Z.pos (digits2_pos m) <= 53)%Z.
Proof.
  intros Hv. pose proof (Prim2SF_valid v) as Hval. rewrite Hv in Hval.
  unfold valid_binary, bounded, canonical_mantissa in Hval.
  apply andb_prop in Hval. destruct Hval as [Hc _].
  apply Z.eqb_eq in Hc. rewrite fexp_binary64 in Hc. lia.
Qed.

Lemma float_div_self (v : float) (s : bool) (m : positive) (e : Z) :
  Prim2SF v = S754_finite s m e -> v / v = lit 1.
Proof.
  intros Hv. apply Prim2SF_inj. cbn [div float_number lit].
  rewrite div_spec, Hv. unfold SF64div.
  pose proof (SFdiv_pow2 s m m e 0 0 (float_valid_digits v s m e Hv)) as Hq.
  rewrite Z.add_0_r in Hq. rewrite Hq by lia. reflexivity.
Qed.

Lemma float_zero_div (v : float) (s : bool) (m : positive) (e : Z) :
  Prim2SF v = S754_finite s m e ->
  lit 0 / v = if s then neg_zero else zero.
Proof.
  intros Hv. apply Prim2SF_inj. cbn [div float_number lit].
  rewrite div_spec, Hv.
  change (Prim2SF (float_lit 0)) with (S754_zero false).
  destruct s; reflexivity.
Qed.

Lemma float_is_finite_infinity (x : float) (s : bool) :
  Prim2SF x = S754_infinity s -> is_finite x = false.
Proof.
  intros Hx. unfold is_finite, is_nan, is_infinity.
  rewrite !eqb_spec, abs_spec, Hx.
  change (Prim2SF infinity) with (S754_infinity false).
  destruct s; reflexivity.
Qed.

(** The total of four equal values, when it is finite, is four times
    the value, and the share of each is a quarter. *)
Lemma float_quarter_of_sum (v : float) :
  (v =? lit 0) = false -> is_finite (v + v + v + v) = true ->
  v / (lit 0 + v + v + v + v) = lit 0.25 /\
  (lit 0 + v + v + v + v =? lit 0) = false /\ truthy v = true.
Proof.
  intros Hnz Hfin.
  assert (Hv : exists (s : bool) (m : positive) (e : Z), Prim2SF v = S754_finite s m e).
  { cbn [seq float_number] in Hnz. rewrite eqb_spec in Hnz.
    change (Prim2SF (lit 0)) with (S754_zero false) in Hnz.
    cbn [add float_number] in Hfin.
    destruct (Prim2SF v) as [s | s | | s m e] eqn:Hv.
    - destruct s; discriminate.
    - rewrite (float_is_finite_infinity _ s) in Hfin; [discriminate |].
      rewrite !add_spec, Hv. destruct s; reflexivity.
    - unfold is_finite, is_nan in Hfin. rewrite !eqb_spec, !add_spec, Hv in Hfin.
      discriminate.
    - exists s, m, e. reflexivity. }
  destruct Hv as (s & m & e & Hv).
  rewrite (float_add_zero_l v s m e Hv).
  pose proof (Prim2SF_valid v) as Hval. rewrite Hv in Hval.
  cbn [add float_number] in *.
  destruct (SFadd_sum4 s m e Hval) as [Hinf | (R & j & HT & Hj & HR)].
  - rewrite (float_is_finite_infinity _ s) in Hfin; [discriminate |].
    rewrite !add_spec, Hv. exact Hinf.
  - assert (HT' : Prim2SF (v + v + v + v)%float = S754_finite s R (e + j))
      by (rewrite !add_spec, Hv; exact HT).
    split; [| split].
    + apply Prim2SF_inj. cbn [div float_number lit].
      rewrite div_spec, Hv, HT'. unfold SF64div.
      rewrite (SFdiv_pow2 s m R e j 2 (float_valid_digits v s m e Hv));
        [reflexivity | lia | lia |].
      rewrite HR. reflexivity.
    + apply (float_finite_truthy _ s R (e + j) HT').
    + apply (float_finite_truthy v s m e Hv).
Qed.

(** ** calculateDiversification *)

Ltac asset_cases Hb :=
  cbv [assets In] in Hb; destruct Hb as [<- | [<- | [<- | [<- | []]]]].

(** The value the code takes for an asset is its worth, when that is a
    number other than zero, and zero without an entry or a worth. *)
Lemma holdingValue_worth (portfolio : list (string * Holding float))
  (a : string) (v : float) :
  worth portfolio a = Some v -> truthy v = true ->
  holdingValue portfolio a = v.
Proof.
  unfold worth, holdingValue, get, or_else.
  destruct (own portfolio a) as [h |]; [| discriminate].
  intros Hw Ht.
  replace (balance h * currentPrice h) with v
    by (injection Hw as Hw; symmetry; exact Hw).
  rewrite Ht. reflexivity.
Qed.

Lemma holdingValue_no_worth (portfolio : list (string * Holding float))
  (a : string) :
  (forall w, worth portfolio a = Some w -> w === lit 0) ->
  holdingValue portfolio a = lit 0.
Proof.
  unfold worth, holdingValue, get, or_else. intros Hw.
  destruct (own portfolio a) as [h |].
  - unfold truthy. rewrite (Hw _ eq_refl). reflexivity.
  - destruct (existsb (String.eqb a) Object_prototype); reflexivity.
Qed.

(** C5, as stated, fails on the doubles the code computes with. A single
    holding of 1e200 units at a price of 1e200 is worth Infinity: its
    share is Infinity / Infinity, and hhi and the score are NaN. Four
    holdings worth 1e308 each have an infinite total: every share is 0,
    hhi is 0 and the score is 100. Four holdings worth zero have a total
    of zero and take the early return: there is no hhi and the score is
    0. *)
Lemma calculateDiversification_concentration_counterexample :
  (let portfolio :=
     [("gold", {| balance := 1e200%float; currentPrice := 1e200%float |})] in
   singleAsset portfolio "gold" infinity /\
   hhi (calculateDiversification portfolio) = Some NaN /\
   diversificationScore (calculateDiversification portfolio) = NaN) /\
  (let portfolio :=
     [("gold", {| balance := 1%float; currentPrice := 1e308%float |});
      ("silver", {| balance := 1%float; currentPrice := 1e308%float |});
      ("platinum", {| balance := 1%float; currentPrice := 1e308%float |});
      ("stablecoin", {| balance := 1%float; currentPrice := 1e308%float |})] in
   equalValues portfolio 1e308%float /\
   hhi (calculateDiversification portfolio) = Some (lit 0) /\
   diversificationScore (calculateDiversification portfolio) = lit 100) /\
  (let portfolio :=
     [("gold", {| balance := lit 0 : float; currentPrice := lit 6000 |});
      ("silver", {| balance := lit 0; currentPrice := lit 75 |});
      ("platinum", {| balance := lit 0; currentPrice := lit 2800 |});
      ("stablecoin", {| balance := lit 0; currentPrice := lit 1 |})] in
   equalValues portfolio (lit 0) /\
   hhi (calculateDiversification portfolio) = None /\
   diversificationScore (calculateDiversification portfolio) = lit 0).
Proof.
  split; [| split]; cbv zeta.
  - split; [| split; vm_compute; reflexivity].
    split; [cbv [assets In]; auto | split; [vm_compute; reflexivity |]].
    intros b w Hb Hne. asset_cases Hb;
      [contradiction Hne; reflexivity | vm_compute; discriminate ..].
  - split; [| split; vm_compute; reflexivity].
    intros a Ha. asset_cases Ha; vm_compute; reflexivity.
  - split; [| split; vm_compute; reflexivity].
    intros a Ha. asset_cases Ha; vm_compute; reflexivity.
Qed.

(** C5, amended: over binary64, a portfolio whose entire value is in a
    single asset, that value being a finite double other than zero, has hhi
    1 and diversificationScore 0; a portfolio of four assets of the equal
    value v, a double other than zero whose sum v + v + v + v is finite,
    has hhi 0.25, diversificationScore 75 and riskLevel LOW. The value of
    an asset is balance * currentPrice of its entry. *)
Theorem calculateDiversification_concentration :
  forall (portfolio : list (string * Holding float)) (v : float),
    (forall a, singleAsset portfolio a v ->
       (v =? lit 0) = false -> is_finite v = true ->
       hhi (calculateDiversification portfolio) = Some (lit 1) /\
       diversificationScore (calculateDiversification portfolio) = lit 0) /\
    (equalValues portfolio v ->
       (v =? lit 0) = false -> is_finite (v + v + v + v)%float = true ->
       hhi (calculateDiversification portfolio) = Some (lit 0.25) /\
       diversificationScore (calculateDiversification portfolio) = lit 75 /\
       riskLevel (calculateDiversification portfolio) = "LOW").
Proof.
  intros portfolio v. split.
  - intros a (Ha & Hw & Hrest) Hnz Hfin.
    destruct (float_finite_nonzero v Hfin Hnz) as (s & m & e & Hv).
    destruct (float_finite_truthy v s m e Hv) as [_ Ht].
    assert (Hz : forall b, In b assets -> b <> a ->
                   holdingValue portfolio b = lit 0).
    { intros b Hb Hba. apply holdingValue_no_worth.
      intros w. apply Hrest; assumption. }
    pose proof (holdingValue_worth portfolio a v Hw Ht) as Hva.
    assert (H00 : @add float _ (lit 0) (lit 0) = lit 0)
      by (vm_compute; reflexivity).
    unfold calculateDiversification. cbv [assets fold_left map].
    cbv [assets In] in Ha, Hz.
    destruct Ha as [<- | [<- | [<- | [<- | []]]]];
      rewrite Hva, ?Hz
        by (first [discriminate | repeat first [left; reflexivity | right]]);
      rewrite ?H00, ?(float_add_zero_l v s m e Hv),
        ?(float_add_zero_r v s m e Hv);
      rewrite Hnz; cbv [hhi diversificationScore];
      rewrite (float_div_self v s m e Hv), (float_zero_div v s m e Hv);
      destruct s; vm_compute; split; reflexivity.
  - intros Heq Hnz Hfin.
    destruct (float_quarter_of_sum v Hnz Hfin) as (Hq & HT & Ht).
    assert (Hva : forall a, In a assets -> holdingValue portfolio a = v).
    { intros a Ha. apply holdingValue_worth; [apply Heq; assumption | exact Ht]. }
    unfold calculateDiversification. cbv [assets fold_left map].
    rewrite !Hva by (cbv [assets In]; repeat first [left; reflexivity | right]).
    rewrite HT. cbv [hhi diversificationScore riskLevel].
    rewrite Hq. vm_compute. repeat split.
Qed.

Lemma calculateDiversification_concentration_witness :
  (let portfolio :=
     [("gold", {| balance := lit 2 : float; currentPrice := lit 6000 |});
      ("silver", {| balance := lit 0; currentPrice := lit 75 |})] in
   hhi (calculateDiversification portfolio) = Some (lit 1) /\
   diversificationScore (calculateDiversification portfolio) = lit 0) /\
  (let portfolio :=
     [("gold", {| balance := lit 1 : float; currentPrice := lit 6000 |});
      ("silver", {| balance := lit 80; currentPrice := lit 75 |});
      ("platinum", {| balance := lit 2; currentPrice := lit 3000 |});
      ("stablecoin", {| balance := lit 6000; currentPrice := lit 1 |})] in
   hhi (calculateDiversification portfolio) = Some (lit 0.25) /\
   diversificationScore (calculateDiversification portfolio) = lit 75 /\
   riskLevel (calculateDiversification portfolio) = "LOW").
Proof.
  split; cbv zeta.
  - apply (proj1 (calculateDiversification_concentration _ (lit 12000)) "gold").
    + split; [cbv [assets In]; auto | split; [vm_compute; reflexivity |]].
      intros b w Hb Hne. asset_cases Hb;
        [contradiction Hne; reflexivity
        | vm_compute; intros Hw; injection Hw as <-; reflexivity
        | vm_compute; discriminate ..].
    + vm_compute. reflexivity.
    + vm_compute. reflexivity.
  - apply (proj2 (calculateDiversification_concentration _ (lit 6000))).
    + intros a Ha. asset_cases Ha; vm_compute; reflexivity.
    + vm_compute. reflexivity.
    + vm_compute. reflexivity.
Defined.

(** The two portfolios in full. *)
Example calculateDiversification_concentration_binary64 :
  calculateDiversification
    [("gold", {| balance := lit 2 : float; currentPrice := lit 6000 |});
     ("silver", {| balance := lit 0; currentPrice := lit 75 |})] =
    {| diversificationScore := lit 0;
       allocation :=
         [("gold", {| weight := lit 100; value := lit 12000 |});
          ("silver", {| weight := lit 0; value := lit 0 |});
          ("platinum", {| weight := lit 0; value := lit 0 |});
          ("stablecoin", {| weight := lit 0; value := lit 0 |})];
       riskLevel := "HIGH";
       hhi := Some (lit 1) |} /\
  calculateDiversification
    [("gold", {| balance := lit 1 : float; currentPrice := lit 6000 |});
     ("silver", {| balance := lit 80; currentPrice := lit 75 |});
     ("platinum", {| balance := lit 2; currentPrice := lit 3000 |});
     ("stablecoin", {| balance := lit 6000; currentPrice := lit 1 |})] =
    {| diversificationScore := lit 75;
       allocation :=
         [("gold", {| weight := lit 25; value := lit 6000 |});
          ("silver", {| weight := lit 25; value := lit 6000 |});
          ("platinum", {| weight := lit 25; value := lit 6000 |});
          ("stablecoin", {| weight := lit 25; value := lit 6000 |})];
       riskLevel := "LOW";
       hhi := Some (lit 0.25) |}.
Proof. split; vm_compute; reflexivity. Qed.

(** An empty portfolio takes the early return, without an hhi field. *)
Example calculateDiversification_empty :
  calculateDiversification ([] : list (string * Holding float)) =
    {| diversificationScore := lit 0; allocation := [];
       riskLevel := "LOW"; hhi := None |}.
Proof. vm_compute. reflexivity. Qed.

(** ** getMinimumAmounts and getMaximumAmounts *)

Lemma own_not_in (A : Type) (o : list (string * A)) (k : string) :
  ~ In k (map fst o) -> own o k = None.
Proof.
  induction o as [| [k' a] o IH]; intros Hk; [reflexivity |].
  cbn in *. destruct (String.eqb_spec k k') as [-> | Hne].
  - exfalso. apply Hk. left. reflexivity.
  - apply IH. intros Hin. apply Hk. right. exact Hin.
Qed.

Lemma existsb_eqb_not_in (l : list string) (k : string) :
  ~ In k l -> existsb (String.eqb k) l = false.
Proof.
  induction l as [| k' l IH]; intros Hk; [reflexivity |].
  cbn in *. destruct (String.eqb_spec k k') as [-> | Hne].
  - exfalso. apply Hk. left. reflexivity.
  - apply IH. intros Hin. apply Hk. right. exact Hin.
Qed.

(** A name that is neither an own key of the table nor inherited is not
    found. *)
Lemma get_Absent (A : Type) (o : list (string * A)) (k : string) :
  ~ In k (map fst o) -> ~ In k Object_prototype -> get o k = Absent.
Proof.
  intros Hown Hproto. unfold get.
  rewrite (own_not_in A o k Hown), (existsb_eqb_not_in _ k Hproto). reflexivity.
Qed.

(** C6, as stated, fails: for the unknown asset "copper" the minimum
    lookup does not fail but returns the minimums of gold. *)
Lemma getMinimumAmounts_unknown_asset_counterexample :
  ~ In "copper" assets /\
  (getMinimumAmounts "copper" : property (Limits float)) =
    Own {| amount := lit 0.1; unit_ := Some "gram"; inr := lit 600 |}.
Proof.
  split; [| vm_compute; reflexivity].
  cbv [assets In]. intros [H | [H | [H | [H | []]]]]; discriminate H.
Qed.

(** C6, amended: in every number model, for every asset name that is
    neither one of gold, silver, platinum, stablecoin nor a property name
    inherited from Object.prototype, getMinimumAmounts returns the minimums
    of gold (0.1 gram, 600), and getMaximumAmounts fails with a TypeError
    for every user. *)
Theorem limits_of_unknown_asset :
  forall (N : Type) (JS : JSNumber N) (asset : string) (user : User),
    ~ In asset assets -> ~ In asset Object_prototype ->
    (getMinimumAmounts asset : property (Limits N)) =
      Own {| amount := lit 0.1; unit_ := Some "gram"; inr := lit 600 |} /\
    (getMaximumAmounts asset user : completion (Limits N)) = Throw TypeError.
Proof.
  intros N JS asset user Hasset Hproto.
  unfold getMinimumAmounts, getMaximumAmounts.
  rewrite (get_Absent _ minimums asset), (get_Absent _ baseMaximums asset);
    try assumption.
  split; reflexivity.
Qed.

Lemma limits_of_unknown_asset_witness :
  (getMinimumAmounts "copper" : property (Limits float)) =
    Own {| amount := lit 0.1; unit_ := Some "gram"; inr := lit 600 |} /\
  (getMaximumAmounts "copper" {| kycLevel := 2 |} : completion (Limits float)) =
    Throw TypeError.
Proof.
  apply (limits_of_unknown_asset float _ "copper" {| kycLevel := 2 |}).
  - cbv [assets In]. intros [H | [H | [H | [H | []]]]]; discriminate H.
  - cbv [Object_prototype In]. intros H.
    repeat (destruct H as [H | H]; [discriminate H |]). exact H.
Defined.

(** The names inherited from Object.prototype are found in every table:
    the minimum lookup returns the inherited member and the maximum lookup
    multiplies its undefined fields. *)
Example limits_of_inherited_name :
  (getMinimumAmounts "toString" : property (Limits float)) = Inherited "toString" /\
  (getMaximumAmounts "toString" {| kycLevel := 2 |} : completion (Limits float)) =
    Normal {| amount := NaN; unit_ := None; inr := NaN |}.
Proof. split; vm_compute; reflexivity. Qed.

(** The limits of a known asset, for a verified user. *)
Example getMaximumAmounts_gold_verified :
  (getMaximumAmounts "gold" {| kycLevel := 2 |} : completion (Limits float)) =
    Normal {| amount := lit 500; unit_ := Some "gram"; inr := lit 3000000 |}.
Proof. vm_compute. reflexivity. Qed.

(** ** calculateRedemptionFees for unlisted assets *)

(** C10, as stated, fails for the asset name "toString", which is outside
    gold, silver and platinum: the price table inherits a member of that
    name from Object.prototype, the member is truthy, the price 1 is not
    taken, and the value and the fees that depend on it are NaN. *)
Lemma calculateRedemptionFees_inherited_name_counterexample :
  ~ In "toString" ["gold"; "silver"; "platinum"] /\
  redemptionValue "toString" (lit 60 : float) = NaN /\
  (redemptionValue "toString" (lit 60 : float) =? lit 60) = false /\
  calculateRedemptionFees "toString" (lit 60 : float) "HOME" =
    {| deliveryFee := lit 200; insuranceFee := NaN; processingFee := NaN;
       totalFees := NaN; netValue := NaN |}.
Proof.
  split; [| repeat split; vm_compute; reflexivity].
  cbv [In]. intros [H | [H | [H | []]]]; discriminate H.
Qed.

(** C10, amended: over binary64, for every asset name that is neither
    gold, silver or platinum nor a property name inherited from
    Object.prototype, for every quantity and delivery method, the value is
    the quantity (price 1 per gram; the function takes no reference price),
    insuranceFee is round2 (quantity * 0.005) and processingFee is
    round2 (quantity * 0.01). *)
Theorem calculateRedemptionFees_unlisted_asset :
  forall (asset : string) (quantityGrams : float) (deliveryMethod : string),
    ~ In asset ["gold"; "silver"; "platinum"] -> ~ In asset Object_prototype ->
    redemptionValue asset quantityGrams = quantityGrams /\
    insuranceFee (calculateRedemptionFees asset quantityGrams deliveryMethod) =
      round2 (quantityGrams * lit 0.005) /\
    processingFee (calculateRedemptionFees asset quantityGrams deliveryMethod) =
      round2 (quantityGrams * lit 0.01).
Proof.
  intros asset q method Hasset Hproto.
  assert (Hvalue : redemptionValue asset q = q).
  { unfold redemptionValue, redemptionPrice.
    rewrite (get_Absent _ marketPrices asset Hasset Hproto).
    change (lit 1 : float) with 1%float. apply float_mul_one. }
  unfold calculateRedemptionFees. cbv [insuranceFee processingFee].
  rewrite Hvalue. repeat split.
Qed.

Lemma calculateRedemptionFees_unlisted_asset_witness :
  redemptionValue "stablecoin" (lit 60 : float) = lit 60 /\
  insuranceFee (calculateRedemptionFees "stablecoin" (lit 60 : float) "HOME") =
    round2 (lit 60 * lit 0.005) /\
  processingFee (calculateRedemptionFees "stablecoin" (lit 60 : float) "HOME") =
    round2 (lit 60 * lit 0.01).
Proof.
  apply (calculateRedemptionFees_unlisted_asset "stablecoin" (lit 60) "HOME").
  - cbv [In]. intros [H | [H | [H | []]]]; discriminate H.
  - cbv [Object_prototype In]. intros H.
    repeat (destruct H as [H | H]; [discriminate H |]). exact H.
Defined.

(** The stablecoin, 60 units delivered home. *)
Example calculateRedemptionFees_stablecoin :
  calculateRedemptionFees "stablecoin" (lit 60 : float) "HOME" =
    {| deliveryFee := lit 200; insuranceFee := lit 0.3; processingFee := lit 0.6;
       totalFees := lit 200.9; netValue := lit (-140.9) |}.
Proof. vm_compute. reflexivity. Qed.

(** * Further properties *)

(** ** The order of binary64 *)

Lemma SFleb_trans (a b c : spec_float) :
  SFleb a b = true -> SFleb b c = true -> SFleb a c = true.
Proof.
  unfold SFleb.
  destruct a as [sa | sa | | sa ma ea], b as [sb | sb | | sb mb eb],
           c as [sc | sc | | sc mc ec]; cbn;
    try destruct sa; try destruct sb; try destruct sc; cbn;
    try discriminate; try reflexivity; intros Hab Hbc.
  all: destruct (Z.compare_spec ea eb), (Z.compare_spec eb ec),
       (Z.compare_spec ea ec); subst; try lia; try discriminate;
       try reflexivity.
  all: rewrite ?Pos.compare_cont_spec in *; cbn in *.
  all: destruct (Pos.compare_spec ma mb), (Pos.compare_spec mb mc),
       (Pos.compare_spec ma mc); subst; cbn in *; try lia; try discriminate;
       try reflexivity.
Qed.

Lemma float_leb_trans (x y z : float) :
  PrimFloat.leb x y = true -> PrimFloat.leb y z = true ->
  PrimFloat.leb x z = true.
Proof. rewrite !leb_spec. apply SFleb_trans. Qed.

Lemma SFltb_not_leb (a b : spec_float) : SFltb a b = true -> SFleb b a = false.
Proof.
  unfold SFltb, SFleb.
  destruct a as [sa | sa | | sa ma ea], b as [sb | sb | | sb mb eb]; cbn;
    try destruct sa; try destruct sb; cbn; try discriminate; try reflexivity;
    intros Hab.
  all: destruct (Z.compare_spec ea eb), (Z.compare_spec eb ea); subst;
       try lia; try discriminate; try reflexivity.
  all: rewrite ?Pos.compare_cont_spec in *; cbn in *.
  all: destruct (Pos.compare_spec ma mb), (Pos.compare_spec mb ma); subst;
       cbn in *; try lia; try discriminate; try reflexivity.
Qed.

Lemma float_ltb_not_leb (x y : float) :
  PrimFloat.ltb x y = true -> PrimFloat.leb y x = false.
Proof. rewrite ltb_spec, leb_spec. apply SFltb_not_leb. Qed.

(** A number that is above or below another one is not NaN. *)
Lemma float_leb_not_nan (x y : float) :
  PrimFloat.leb x y = true ->
  PrimFloat.eqb x x = true /\ PrimFloat.eqb y y = true.
Proof.
  rewrite leb_spec, !eqb_spec. unfold SFleb, SFeqb.
  destruct (Prim2SF x) as [sa | sa | | sa ma ea],
           (Prim2SF y) as [sb | sb | | sb mb eb]; cbn;
    try destruct sa; try destruct sb; cbn; try discriminate; intros _;
    rewrite ?Z.compare_refl, ?Pos.compare_cont_refl; split; reflexivity.
Qed.

(** ** The sign of doubles *)

(** The operations of the module on a number and a positive constant keep
    the sign of the number: no rounding turns a number that is not
    negative into a negative one, or into NaN. *)

Lemma iter_pos_invariant (A : Type) (P : A -> Prop) (f : A -> A) :
  (forall x, P x -> P (f x)) -> forall n x, P x -> P (iter_pos f n x).
Proof.
  intros Hf. induction n as [n IH | n IH |]; intros x Hx; cbn [iter_pos].
  - apply IH, IH, Hf, Hx.
  - apply IH, IH, Hx.
  - apply Hf, Hx.
Qed.

Lemma shr_1_nonneg (r : shr_record) :
  (0 <= shr_m r)%Z -> (0 <= shr_m (shr_1 r))%Z.
Proof.
  destruct r as [m r s]. cbn [shr_m].
  destruct m as [| [p | p |] | p]; cbn; lia.
Qed.

Lemma shr_fexp_nonneg (m e : Z) (l : location) :
  (0 <= m)%Z -> (0 <= shr_m (fst (shr_fexp prec emax m e l)))%Z.
Proof.
  intros Hm. unfold shr_fexp, shr.
  assert (H0 : (0 <= shr_m (shr_record_of_loc m l))%Z)
    by (destruct l as [| []]; exact Hm).
  destruct (fexp prec emax (Zdigits2 m + e) - e)%Z; cbn [fst]; try exact H0.
  apply (iter_pos_invariant _ (fun r => (0 <= shr_m r)%Z));
    [exact shr_1_nonneg | exact H0].
Qed.

Lemma round_nearest_even_nonneg (m : Z) (l : location) :
  (0 <= m)%Z -> (0 <= round_nearest_even m l)%Z.
Proof.
  intros Hm. unfold round_nearest_even.
  destruct l as [| []]; try lia. destruct (Z.even m); lia.
Qed.

(** A rounded double has the sign it is given, and is not NaN. *)
Lemma binary_round_aux_signed (s : bool) (m e : Z) (l : location) :
  (0 <= m)%Z -> SFsigned s (binary_round_aux prec emax s m e l).
Proof.
  intros Hm. unfold binary_round_aux.
  pose proof (shr_fexp_nonneg m e l Hm) as H1.
  destruct (shr_fexp prec emax m e l) as [mrs' e']. cbn [fst] in H1.
  pose proof (shr_fexp_nonneg _ e' loc_Exact
                (round_nearest_even_nonneg _ (loc_of_shr_record mrs') H1)) as H2.
  destruct (shr_fexp prec emax
              (round_nearest_even (shr_m mrs') (loc_of_shr_record mrs')) e'
              loc_Exact) as [mrs'' e''].
  cbn [fst] in H2.
  destruct (shr_m mrs'') as [| p | p]; [exact I | | lia].
  destruct (e'' <=? emax - prec)%Z; reflexivity.
Qed.

Lemma binary_round_signed (s : bool) (m : positive) (e : Z) :
  SFsigned s (binary_round prec emax s m e).
Proof.
  unfold binary_round.
  destruct (shl_align m e (fexp prec emax (Z.pos (digits2_pos m) + e))) as [mz ez].
  apply binary_round_aux_signed. lia.
Qed.

Lemma SFmul_signed (s : bool) (x : spec_float) (m : positive) (e : Z) :
  SFsigned s x -> SFsigned s (SF64mul x (S754_finite false m e)).
Proof.
  destruct x as [sx | sx | | sx mx ex]; cbn [SFsigned SF64mul SFmul];
    try (intros <-; rewrite xorb_false_r); try exact (fun H => H);
    try reflexivity.
  apply binary_round_aux_signed. lia.
Qed.

Lemma SFdiv_signed (s : bool) (x : spec_float) (m : positive) (e : Z) :
  SFsigned s x -> SFsigned s (SF64div x (S754_finite false m e)).
Proof.
  destruct x as [sx | sx | | sx mx ex]; cbn [SFsigned SF64div SFdiv];
    try (intros <-; rewrite xorb_false_r); try exact (fun H => H);
    try reflexivity.
  unfold SFdiv_core_binary.
  set (e' := Z.min _ _). set (m' := match (ex - e - e')%Z with
                                    | Z.pos _ => _ | Z0 => _ | Z.neg _ => _ end).
  assert (Hm' : (0 <= m')%Z).
  { subst m'. destruct (ex - e - e')%Z; [lia | | lia].
    apply Z.shiftl_nonneg. lia. }
  destruct (Z.div_eucl m' (Z.pos m)) as [q r] eqn:Hqr.
  apply binary_round_aux_signed.
  assert (Hq : q = (m' / Z.pos m)%Z) by (unfold Z.div; rewrite Hqr; reflexivity).
  subst q. apply Z.div_pos; lia.
Qed.

Lemma SFadd_signed (s : bool) (x y : spec_float) :
  SFsigned s x -> SFsigned s y -> SFsigned s (SF64add x y).
Proof.
  destruct x as [sx | sx | | sx mx ex]; destruct y as [sy | sy | | sy my ey];
    cbn [SFsigned SF64add SFadd]; try contradiction; intros Hx Hy; subst;
    try exact I; try reflexivity.
  - destruct sx, sy; exact I.
  - destruct s; reflexivity.
  - destruct s; cbn [cond_Zopp Z.opp Z.add binary_normalize];
      apply binary_round_signed.
Qed.

Lemma float_nonneg_signed (x : float) :
  (lit 0 <=? x) = true <-> SFsigned false (Prim2SF x).
Proof.
  cbn [le float_number lit]. rewrite leb_spec.
  change (Prim2SF (float_lit 0)) with (S754_zero false).
  destruct (Prim2SF x) as [s | [] | | [] m e]; cbn; intuition congruence.
Qed.

Lemma float_nonpos_signed (x : float) :
  (x <=? lit 0) = true <-> SFsigned true (Prim2SF x).
Proof.
  cbn [le float_number lit]. rewrite leb_spec.
  change (Prim2SF (float_lit 0)) with (S754_zero false).
  destruct (Prim2SF x) as [s | [] | | [] m e]; cbn; intuition congruence.
Qed.

Lemma Z2float_signed (n : Z) :
  SFsigned (n <? 0)%Z (Prim2SF (Z2float n)).
Proof.
  assert (Hpos : forall p, SFsigned false (Prim2SF (of_uint63 (Uint63.of_Z (Z.pos p))))).
  { intros p. rewrite of_uint63_spec.
    pose proof (Uint63.to_Z_bounded (Uint63.of_Z (Z.pos p))) as Hb.
    destruct (Uint63.to_Z (Uint63.of_Z (Z.pos p))) as [| q | q];
      cbn [binary_normalize]; [exact I | apply binary_round_signed | lia]. }
  destruct n as [| p | p]; cbn [Z2float Z.ltb Z.compare].
  - exact I.
  - apply Hpos.
  - rewrite opp_spec. specialize (Hpos p).
    destruct (Prim2SF (of_uint63 (Uint63.of_Z (Z.pos p)))) as [s | s | | s m e];
      cbn in *; try exact I; try contradiction; subst; reflexivity.
Qed.

(** [Math.round] keeps the sign: the nearest integer to a number that is
    not negative is not negative, and the nearest integer, ties upwards,
    to a negative number is negative or negative zero. *)
Lemma float_round_signed (s : bool) (x : float) :
  SFsigned s (Prim2SF x) -> SFsigned s (Prim2SF (float_round x)).
Proof.
  intros Hx. unfold float_round.
  destruct (Prim2SF x) as [s0 | s0 | | s0 m e] eqn:Hp;
    try (rewrite Hp; exact Hx).
  cbn [SFsigned] in Hx. subst s0.
  destruct (0 <=? e)%Z eqn:He; [rewrite Hp; reflexivity |].
  apply Z.leb_gt in He.
  set (n := ((2 * (if s then Z.neg m else Z.pos m) + 2 ^ (- e)) / 2 ^ (1 - e))%Z).
  assert (Hpow : (2 ^ (1 - e) = 2 * 2 ^ (- e))%Z).
  { replace (1 - e)%Z with (Z.succ (- e)) by lia. apply Z.pow_succ_r. lia. }
  assert (Hpos : (0 < 2 ^ (- e))%Z) by (apply Z.pow_pos_nonneg; lia).
  destruct (n =? 0)%Z eqn:Hn0; [destruct s; exact I |].
  apply Z.eqb_neq in Hn0.
  pose proof (Z2float_signed n) as Hn.
  assert (Hs : (n <? 0)%Z = s); [| rewrite Hs in Hn; exact Hn].
  destruct s.
  - apply Z.ltb_lt.
    assert (n < 1)%Z; [| lia].
    subst n. apply Z.div_lt_upper_bound; lia.
  - apply Z.ltb_ge. subst n. apply Z.div_pos; lia.
Qed.



Lemma float_mul_signed (s : bool) (x c : float) (m : positive) (e : Z) :
  Prim2SF c = S754_finite false m e ->
  SFsigned s (Prim2SF x) -> SFsigned s (Prim2SF (x * c)).
Proof.
  intros Hc Hx. cbn [mul float_number]. rewrite mul_spec, Hc.
  apply SFmul_signed. exact Hx.
Qed.

Lemma float_div_signed (s : bool) (x c : float) (m : positive) (e : Z) :
  Prim2SF c = S754_finite false m e ->
  SFsigned s (Prim2SF x) -> SFsigned s (Prim2SF (x / c)).
Proof.
  intros Hc Hx. cbn [div float_number]. rewrite div_spec, Hc.
  apply SFdiv_signed. exact Hx.
Qed.

Lemma float_add_signed (s : bool) (x y : float) :
  SFsigned s (Prim2SF x) -> SFsigned s (Prim2SF y) ->
  SFsigned s (Prim2SF (x + y)).
Proof.
  intros Hx Hy. cbn [add float_number]. rewrite add_spec.
  apply SFadd_signed; assumption.
Qed.

Lemma lit_100_binary64 :
  Prim2SF (lit 100) = S754_finite false 7036874417766400 (-46).
Proof. vm_compute. reflexivity. Qed.

(** Rounding to two digits keeps the sign. *)
Lemma round2_signed (s : bool) (x : float) :
  SFsigned s (Prim2SF x) -> SFsigned s (Prim2SF (round2 x)).
Proof.
  intros Hx. unfold round2.
  apply (float_div_signed s _ (lit 100) _ _ lit_100_binary64).
  cbn [Math_round float_number]. apply float_round_signed.
  apply (float_mul_signed s _ (lit 100) _ _ lit_100_binary64).
  exact Hx.
Qed.

Lemma float_positive_finite (r : float) :
  (lit 0 <? r) = true -> is_finite r = true ->
  exists (m : positive) (e : Z), Prim2SF r = S754_finite false m e.
Proof.
  unfold is_finite, is_nan, is_infinity. cbn [lt float_number lit].
  rewrite ltb_spec, !eqb_spec, abs_spec.
  change (Prim2SF infinity) with (S754_infinity false).
  change (Prim2SF (float_lit 0)) with (S754_zero false).
  destruct (Prim2SF r) as [s | [] | | [] m e]; cbn; try discriminate.
  intros _ _. exists m, e. reflexivity.
Qed.

Lemma float_is_finite_cases (x : float) :
  is_finite x = true ->
  (exists s, Prim2SF x = S754_zero s) \/
  (exists s m e, Prim2SF x = S754_finite s m e).
Proof.
  unfold is_finite, is_nan, is_infinity.
  rewrite !eqb_spec, abs_spec.
  change (Prim2SF infinity) with (S754_infinity false).
  destruct (Prim2SF x) as [s | [] | | s m e]; cbn; try discriminate; intros _.
  - left. exists s. reflexivity.
  - right. exists s, m, e. reflexivity.
Qed.

(** The difference of two finite doubles is a number. *)
Lemma float_sub_finite (x y : float) :
  is_finite x = true -> is_finite y = true ->
  Prim2SF (x - y) <> S754_nan.
Proof.
  intros Hx Hy. cbn [sub float_number]. rewrite sub_spec.
  destruct (float_is_finite_cases x Hx) as [[sx ->] | (sx & mx & ex & ->)];
    destruct (float_is_finite_cases y Hy) as [[sy ->] | (sy & my & ey & ->)];
    cbn [SF64sub SFsub]; try discriminate.
  - destruct sx, sy; discriminate.
  - set (M := (cond_Zopp sx _ - cond_Zopp sy _)%Z).
    destruct M as [| p | p]; cbn [binary_normalize]; [discriminate | |].
    + pose proof (binary_round_signed false p (Z.min ex ey)) as H.
      intros Hn. rewrite Hn in H. exact H.
    + pose proof (binary_round_signed true p (Z.min ex ey)) as H.
      intros Hn. rewrite Hn in H. exact H.
Qed.

(** ** calculateSpread *)

(** X1: over binary64, for an omitted spread rate (the default 0.01) and
    every price that is not negative, Infinity included, the bid, the mid
    and the ask of the quote are not negative, and so are numbers; for
    every price that is not positive they are not positive; the
    spreadPercentage is 1. *)
Theorem calculateSpread_signs :
  forall (price : float),
    ((lit 0 <=? price) = true ->
       (lit 0 <=? bid (calculateSpread price None)) = true /\
       (lit 0 <=? mid (calculateSpread price None)) = true /\
       (lit 0 <=? ask (calculateSpread price None)) = true) /\
    ((price <=? lit 0) = true ->
       (bid (calculateSpread price None) <=? lit 0) = true /\
       (mid (calculateSpread price None) <=? lit 0) = true /\
       (ask (calculateSpread price None) <=? lit 0) = true) /\
    spreadPercentage (calculateSpread price None) = lit 1.
Proof.
  intros price.
  assert (Hbid : Prim2SF (lit 1 - lit 0.01) =
                 S754_finite false 8917127262193582 (-53))
    by (vm_compute; reflexivity).
  assert (Hask : Prim2SF (lit 1 + lit 0.01) =
                 S754_finite false 4548635623644201 (-52))
    by (vm_compute; reflexivity).
  assert (Hall : forall s, SFsigned s (Prim2SF price) ->
            SFsigned s (Prim2SF (bid (calculateSpread price None))) /\
            SFsigned s (Prim2SF (mid (calculateSpread price None))) /\
            SFsigned s (Prim2SF (ask (calculateSpread price None)))).
  { intros s Hs. unfold calculateSpread. cbv [bid mid ask].
    repeat split; apply round2_signed;
      [apply (float_mul_signed s _ _ _ _ Hbid) | | apply (float_mul_signed s _ _ _ _ Hask)];
      exact Hs. }
  split; [| split].
  - intros Hp. apply float_nonneg_signed in Hp.
    destruct (Hall false Hp) as (Hb & Hm & Ha).
    repeat split; apply float_nonneg_signed; assumption.
  - intros Hp. apply float_nonpos_signed in Hp.
    destruct (Hall true Hp) as (Hb & Hm & Ha).
    repeat split; apply float_nonpos_signed; assumption.
  - vm_compute. reflexivity.
Qed.

Lemma calculateSpread_signs_witness :
  (lit 0 <=? bid (calculateSpread (lit 6000 : float) None)) = true /\
  (ask (calculateSpread (lit (-1) : float) None) <=? lit 0) = true.
Proof.
  split.
  - apply (proj1 (calculateSpread_signs (lit 6000))). vm_compute. reflexivity.
  - apply (proj1 (proj2 (calculateSpread_signs (lit (-1))))).
    vm_compute. reflexivity.
Defined.

(** ** calculateGST *)

(** X4: in every number model, the gst field of a trade fee breakdown is
    calculateGST, at its default rate, of the unrounded sum of the spread
    fee and the platform fee. *)
Theorem calculateFees_gst_is_calculateGST :
  forall (N : Type) (JS : JSNumber N) (type asset : string) (quantity price : N),
    gst (calculateFees type asset quantity price) =
      calculateGST (quantity * price * lit 0.01 + quantity * price * lit 0.001)
        None.
Proof.
  intros N JS type asset quantity price.
  unfold calculateFees, calculateGST. cbn [gst].
  destruct (String.eqb type "buy"); reflexivity.
Qed.

(** X5: over binary64, for the default rate 0.18 and for every rate that
    is a finite positive double, calculateGST has the sign of the amount:
    it is not negative for an amount that is not negative, and not positive
    for an amount that is not positive. *)
Theorem calculateGST_signs :
  forall (amount' : float) (gstRate : option float),
    match gstRate with
    | Some rate => (lit 0 <? rate) = true /\ is_finite rate = true
    | None => True
    end ->
    ((lit 0 <=? amount') = true ->
       (lit 0 <=? calculateGST amount' gstRate) = true) /\
    ((amount' <=? lit 0) = true ->
       (calculateGST amount' gstRate <=? lit 0) = true).
Proof.
  intros amount' gstRate Hrate.
  assert (Hr : exists m e,
             Prim2SF (match gstRate with Some rate => rate | None => lit 0.18 end) =
             S754_finite false m e).
  { destruct gstRate as [rate |].
    - destruct Hrate as [Hpos Hfin]. apply float_positive_finite; assumption.
    - eexists. eexists. vm_compute. reflexivity. }
  destruct Hr as (m & e & Hr).
  assert (Hall : forall s, SFsigned s (Prim2SF amount') ->
            SFsigned s (Prim2SF (calculateGST amount' gstRate))).
  { intros s Hs. unfold calculateGST. cbv zeta.
    apply (float_div_signed s _ (lit 100) _ _ lit_100_binary64).
    cbn [Math_round float_number]. apply float_round_signed.
    apply (float_mul_signed s _ (lit 100) _ _ lit_100_binary64).
    apply (float_mul_signed s _ _ _ _ Hr). exact Hs. }
  split; intros Ha.
  - apply float_nonneg_signed, Hall, float_nonneg_signed, Ha.
  - apply float_nonpos_signed, Hall, float_nonpos_signed, Ha.
Qed.

Lemma calculateGST_signs_witness :
  (lit 0 <=? calculateGST (lit 132 : float) None) = true /\
  (calculateGST (lit (-132) : float) (Some (lit 0.05)) <=? lit 0) = true.
Proof.
  split.
  - apply (calculateGST_signs (lit 132) None I). vm_compute. reflexivity.
  - apply (calculateGST_signs (lit (-132)) (Some (lit 0.05))).
    + split; vm_compute; reflexivity.
    + vm_compute. reflexivity.
Defined.

(** ** calculateAnnualFees *)

Lemma projectPlan_fold_buy_sell (N : Type) (JS : JSNumber N)
  (plans : list (SIPPlan N)) (fees : TradingFees N) :
  buy fees = sell fees ->
  buy (fold_left projectPlan plans fees) = sell (fold_left projectPlan plans fees).
Proof.
  revert fees. induction plans as [| plan plans IH]; intros fees Hfees.
  - exact Hfees.
  - cbn [fold_left]. apply IH. unfold projectPlan. cbn [buy sell].
    rewrite Hfees. reflexivity.
Qed.

Lemma projectPlan_fold_swap (N : Type) (JS : JSNumber N)
  (plans : list (SIPPlan N)) (fees : TradingFees N) :
  swap (fold_left projectPlan plans fees) = swap fees.
Proof.
  revert fees. induction plans as [| plan plans IH]; intros fees.
  - reflexivity.
  - cbn [fold_left]. rewrite IH. reflexivity.
Qed.

(** X6: in every number model and for every list of plans, the projected
    buy fees and the projected sell fees are the same number. *)
Theorem calculateAnnualFees_buy_is_sell :
  forall (N : Type) (JS : JSNumber N) (sipPlans : list (SIPPlan N)),
    buy (projectedTradingFees (calculateAnnualFees sipPlans)) =
    sell (projectedTradingFees (calculateAnnualFees sipPlans)).
Proof.
  intros N JS sipPlans. unfold calculateAnnualFees.
  cbn [projectedTradingFees buy sell].
  rewrite (projectPlan_fold_buy_sell N JS sipPlans); reflexivity.
Qed.

(** X7: over binary64 and for every list of plans, the projected swap fees
    are 0; for the empty list every field is 0. *)
Theorem calculateAnnualFees_swap_is_zero :
  forall sipPlans : list (SIPPlan float),
    swap (projectedTradingFees (calculateAnnualFees sipPlans)) = lit 0 /\
    calculateAnnualFees ([] : list (SIPPlan float)) =
      {| annualSIPFees := lit 0;
         projectedTradingFees := {| buy := lit 0; sell := lit 0; swap := lit 0 |};
         totalAnnualFees := lit 0 |}.
Proof.
  intros sipPlans. split; [| vm_compute; reflexivity].
  unfold calculateAnnualFees. cbn [projectedTradingFees swap].
  rewrite projectPlan_fold_swap. vm_compute. reflexivity.
Qed.

Lemma lit_12_binary64 :
  Prim2SF (lit 12) = S754_finite false 6755399441055744 (-49).
Proof. vm_compute. reflexivity. Qed.

Lemma planFee_fold_nonneg (plans : list (SIPPlan float)) (acc : float) :
  Forall (fun plan => (lit 0 <=? planFee plan) = true) plans ->
  SFsigned false (Prim2SF acc) ->
  SFsigned false
    (Prim2SF (fold_left (fun sum plan => sum + planFee plan) plans acc)).
Proof.
  intros Hplans. revert acc.
  induction Hplans as [| plan plans Hplan _ IH]; intros acc Hacc.
  - exact Hacc.
  - cbn [fold_left]. apply IH. apply float_add_signed; [exact Hacc |].
    apply float_nonneg_signed. exact Hplan.
Qed.

Lemma projectPlan_fold_nonneg (plans : list (SIPPlan float))
  (fees : TradingFees float) :
  Forall (fun plan => (lit 0 <=? planAmount plan) = true) plans ->
  SFsigned false (Prim2SF (buy fees)) ->
  SFsigned false (Prim2SF (buy (fold_left projectPlan plans fees))).
Proof.
  intros Hplans. revert fees.
  induction Hplans as [| plan plans Hplan _ IH]; intros fees Hfees.
  - exact Hfees.
  - cbn [fold_left]. apply IH. unfold projectPlan. cbn [buy].
    apply float_add_signed; [exact Hfees |].
    assert (H1 : Prim2SF (lit 0.01) = S754_finite false 5764607523034235 (-59))
      by (vm_compute; reflexivity).
    apply (float_mul_signed false _ _ _ _ H1).
    apply (float_mul_signed false _ _ _ _ lit_12_binary64).
    apply float_nonneg_signed. exact Hplan.
Qed.

(** X8: over binary64, for every list of plans none of whose amounts and
    fees is negative (or NaN), the annual SIP fees, the projected buy and
    sell fees and the total are not negative, and so are numbers. *)
Theorem calculateAnnualFees_signs :
  forall sipPlans : list (SIPPlan float),
    Forall (fun plan => (lit 0 <=? planAmount plan) = true) sipPlans ->
    Forall (fun plan => (lit 0 <=? planFee plan) = true) sipPlans ->
    (lit 0 <=? annualSIPFees (calculateAnnualFees sipPlans)) = true /\
    (lit 0 <=? buy (projectedTradingFees (calculateAnnualFees sipPlans))) = true /\
    (lit 0 <=? sell (projectedTradingFees (calculateAnnualFees sipPlans))) = true /\
    (lit 0 <=? totalAnnualFees (calculateAnnualFees sipPlans)) = true.
Proof.
  intros sipPlans Hamounts Hfees.
  assert (Hzero : SFsigned false (Prim2SF (lit 0))) by exact I.
  pose proof (planFee_fold_nonneg sipPlans (lit 0) Hfees Hzero) as Hsip.
  pose proof (projectPlan_fold_nonneg sipPlans
                {| buy := lit 0; sell := lit 0; swap := lit 0 |}
                Hamounts Hzero) as Hbuy.
  assert (Hsell : SFsigned false (Prim2SF (sell (fold_left projectPlan sipPlans
                    {| buy := lit 0; sell := lit 0; swap := lit 0 |})))).
  { rewrite <- (projectPlan_fold_buy_sell float _ sipPlans); [exact Hbuy | reflexivity]. }
  assert (Hswap : SFsigned false (Prim2SF (swap (fold_left projectPlan sipPlans
                    {| buy := lit 0; sell := lit 0; swap := lit 0 |})))).
  { rewrite projectPlan_fold_swap. exact I. }
  assert (Hannual : SFsigned false (Prim2SF
            (fold_left (fun sum plan => sum + planFee plan) sipPlans (lit 0)
             * lit 12)))
    by (apply (float_mul_signed false _ _ _ _ lit_12_binary64); exact Hsip).
  unfold calculateAnnualFees.
  cbv [annualSIPFees projectedTradingFees totalAnnualFees].
  cbn [buy sell].
  repeat split; apply float_nonneg_signed; apply round2_signed;
    try assumption.
  repeat apply float_add_signed; assumption.
Qed.

Lemma calculateAnnualFees_signs_witness :
  let plans := [{| planAmount := lit 5000 : float; planFee := lit 50 |};
                {| planAmount := lit 0; planFee := lit 12.5 |}] in
  (lit 0 <=? annualSIPFees (calculateAnnualFees plans)) = true /\
  (lit 0 <=? buy (projectedTradingFees (calculateAnnualFees plans))) = true /\
  (lit 0 <=? sell (projectedTradingFees (calculateAnnualFees plans))) = true /\
  (lit 0 <=? totalAnnualFees (calculateAnnualFees plans)) = true.
Proof.
  cbv zeta. apply calculateAnnualFees_signs;
    repeat constructor; vm_compute; reflexivity.
Defined.

(** X9: over binary64, for a single plan of any amount whose fee is
    calculateSIPFee of its frequency, annualSIPFees is twelve times that
    fee: 20 for a daily plan, 150 for a weekly plan and 600 for a monthly
    plan or any other frequency. *)
Theorem calculateAnnualFees_of_calculateSIPFee :
  forall (frequency : string) (amount : float),
    (frequency = "daily" ->
       annualSIPFees (calculateAnnualFees
         [{| planAmount := amount; planFee := calculateSIPFee frequency |}])
       = lit 20) /\
    (frequency = "weekly" ->
       annualSIPFees (calculateAnnualFees
         [{| planAmount := amount; planFee := calculateSIPFee frequency |}])
       = lit 150) /\
    (frequency <> "daily" -> frequency <> "weekly" ->
       annualSIPFees (calculateAnnualFees
         [{| planAmount := amount; planFee := calculateSIPFee frequency |}])
       = lit 600).
Proof.
  intros frequency amount.
  unfold calculateAnnualFees. cbn [annualSIPFees fold_left planFee].
  repeat split.
  - intros ->. vm_compute. reflexivity.
  - intros ->. vm_compute. reflexivity.
  - intros Hd Hw. unfold calculateSIPFee.
    destruct (String.eqb_spec frequency "daily"); [contradiction |].
    destruct (String.eqb_spec frequency "weekly"); [contradiction |].
    destruct (String.eqb frequency "monthly"); vm_compute; reflexivity.
Qed.

Lemma calculateAnnualFees_of_calculateSIPFee_witness :
  annualSIPFees (calculateAnnualFees
    [{| planAmount := lit 5000 : float; planFee := calculateSIPFee "daily" |}])
  = lit 20 /\
  annualSIPFees (calculateAnnualFees
    [{| planAmount := lit 5000 : float; planFee := calculateSIPFee "monthly" |}])
  = lit 600.
Proof.
  split.
  - apply (calculateAnnualFees_of_calculateSIPFee "daily" (lit 5000)).
    reflexivity.
  - apply (calculateAnnualFees_of_calculateSIPFee "monthly" (lit 5000));
      discriminate.
Defined.

(** ** calculateSwapFee: monotonicity and unchecked amounts *)

(** A threshold test that holds for [x] holds for every [y] above [x]. *)
Ltac threshold_up Hxy :=
  match goal with
  | Hx : (lit ?c <=? ?x) = true, Hy : (lit ?c <=? ?y) = false |- _ =>
      let Ht := fresh "Ht" in
      assert (Ht : (lit c <=? y) = true)
        by exact (float_leb_trans _ _ _ Hx Hxy);
      rewrite Ht in Hy; discriminate Hy
  end.

(** X10: over binary64, the swap fee rate does not increase with the
    amount: for x <= y the rate of y is at most the rate of x. *)
Theorem calculateSwapFee_rate_monotone :
  forall x y : float,
    (x <=? y) = true ->
    (percentage (calculateSwapFee y) <=? percentage (calculateSwapFee x)) = true.
Proof.
  intros x y Hxy. unfold calculateSwapFee. cbn [percentage].
  destruct (lit 1000000 <=? x) eqn:H1x;
    [| destruct (lit 500000 <=? x) eqn:H2x;
       [| destruct (lit 100000 <=? x) eqn:H3x;
          [| destruct (lit 50000 <=? x) eqn:H4x]]];
  (destruct (lit 1000000 <=? y) eqn:H1y;
    [| destruct (lit 500000 <=? y) eqn:H2y;
       [| destruct (lit 100000 <=? y) eqn:H3y;
          [| destruct (lit 50000 <=? y) eqn:H4y]]]);
  first [threshold_up Hxy | vm_compute; reflexivity].
Qed.

Lemma calculateSwapFee_rate_monotone_witness :
  (percentage (calculateSwapFee (lit 750000 : float))
     <=? percentage (calculateSwapFee (lit 60000 : float))) = true.
Proof.
  apply (calculateSwapFee_rate_monotone (lit 60000) (lit 750000)).
  vm_compute. reflexivity.
Defined.

(** X11: over binary64, an amount that is negative or NaN is not refused:
    it gets the rate of the lowest tier, 0.005. *)
Theorem calculateSwapFee_unchecked_amount :
  forall x : float,
    (x <? lit 0) = true \/ (x =? x) = false ->
    percentage (calculateSwapFee x) = lit 0.005.
Proof.
  intros x Hx.
  assert (Hbelow : forall c : float,
            (lit 0 <=? c) = true -> (c <=? x) = false).
  { intros c Hc. destruct (c <=? x) eqn:Hcx; [| reflexivity].
    destruct Hx as [Hneg | Hnan].
    - pose proof (float_leb_trans _ _ _ Hc Hcx) as H0x.
      pose proof (float_ltb_not_leb _ _ Hneg) as Hx0.
      change (PrimFloat.leb (lit 0) x) with (lit 0 <=? x) in H0x, Hx0.
      rewrite H0x in Hx0. discriminate Hx0.
    - destruct (float_leb_not_nan _ _ Hcx) as [_ Hxx].
      change (PrimFloat.eqb x x) with (x =? x) in Hxx.
      rewrite Hxx in Hnan. discriminate Hnan. }
  unfold calculateSwapFee. cbn [percentage].
  rewrite !Hbelow by (vm_compute; reflexivity). reflexivity.
Qed.

Lemma calculateSwapFee_unchecked_amount_witness :
  percentage (calculateSwapFee (lit (-1000000) : float)) = lit 0.005 /\
  percentage (calculateSwapFee (NaN : float)) = lit 0.005.
Proof.
  split.
  - apply (calculateSwapFee_unchecked_amount (lit (-1000000))).
    left. vm_compute. reflexivity.
  - apply (calculateSwapFee_unchecked_amount NaN).
    right. vm_compute. reflexivity.
Defined.

(** ** calculateRedemptionFees: the delivery fee and the sign of the fees *)

(** X12: over binary64, for every asset, quantity (also negative or NaN)
    and delivery method (also an unknown one), the delivery fee is one of
    0, 25, 50, 100 and 200; it is 0 exactly for store pickup among these
    and never above 200. *)
Theorem calculateRedemptionFees_deliveryFee_range :
  forall (asset : string) (quantity : float) (deliveryMethod : string),
    In (deliveryFee (calculateRedemptionFees asset quantity deliveryMethod))
       [lit 0; lit 25; lit 50; lit 100; lit 200] /\
    (lit 0 <=? deliveryFee (calculateRedemptionFees asset quantity deliveryMethod))
      = true /\
    (deliveryFee (calculateRedemptionFees asset quantity deliveryMethod)
       <=? lit 200) = true /\
    (deliveryFee (calculateRedemptionFees asset quantity deliveryMethod) = lit 0
       <-> deliveryMethod = "STORE").
Proof.
  intros asset q method.
  unfold calculateRedemptionFees, redemptionDeliveryFee. cbn [deliveryFee].
  destruct (String.eqb_spec method "HOME") as [-> | Hhome].
  - destruct (q <=? lit 10); [| destruct (q <=? lit 50)];
      (split; [cbv [In]; auto 6 |]);
      (split; [vm_compute; reflexivity |]);
      (split; [vm_compute; reflexivity |]);
      (split; intros H; [vm_compute in H |]; discriminate H).
  - destruct (String.eqb_spec method "STORE") as [-> | Hstore].
    + split; [cbv [In]; auto |]. repeat split; vm_compute; reflexivity.
    + destruct (String.eqb_spec method "VAULT") as [-> | Hvault];
        (split; [cbv [In]; auto 6 |]);
        (split; [vm_compute; reflexivity |]);
        (split; [vm_compute; reflexivity |]);
        (split; intros H; [vm_compute in H; discriminate H | contradiction]).
Qed.

(** X13: over binary64, the home delivery fee does not decrease with the
    quantity. *)
Theorem calculateRedemptionFees_home_fee_monotone :
  forall (asset asset' : string) (q q' : float),
    (q <=? q') = true ->
    (deliveryFee (calculateRedemptionFees asset q "HOME")
       <=? deliveryFee (calculateRedemptionFees asset' q' "HOME")) = true.
Proof.
  intros asset asset' q q' Hqq'.
  unfold calculateRedemptionFees, redemptionDeliveryFee.
  cbv [deliveryFee String.eqb Ascii.eqb Bool.eqb].
  assert (Hdown : forall c : float, (q' <=? c) = true -> (q <=? c) = true)
    by (intros c Hc; exact (float_leb_trans _ _ _ Hqq' Hc)).
  destruct (q' <=? lit 10) eqn:H10'.
  - rewrite (Hdown _ H10'). vm_compute. reflexivity.
  - destruct (q' <=? lit 50) eqn:H50'.
    + rewrite (Hdown _ H50').
      destruct (q <=? lit 10); vm_compute; reflexivity.
    + destruct (q <=? lit 10); [| destruct (q <=? lit 50)];
        vm_compute; reflexivity.
Qed.

Lemma calculateRedemptionFees_home_fee_monotone_witness :
  (deliveryFee (calculateRedemptionFees "gold" (lit 5 : float) "HOME")
     <=? deliveryFee (calculateRedemptionFees "silver" (lit 60 : float) "HOME"))
  = true.
Proof.
  apply (calculateRedemptionFees_home_fee_monotone "gold" "silver" (lit 5) (lit 60)).
  vm_compute. reflexivity.
Defined.

(** The price of an asset whose name is not inherited, a table price or
    1, is a positive double. *)
Lemma redemptionPrice_positive (asset : string) :
  ~ In asset Object_prototype ->
  exists m e, Prim2SF (redemptionPrice asset) = S754_finite false m e.
Proof.
  intros Hproto. unfold redemptionPrice, get. cbn [own marketPrices].
  destruct (String.eqb asset "gold");
    [eexists; eexists; vm_compute; reflexivity |].
  destruct (String.eqb asset "silver");
    [eexists; eexists; vm_compute; reflexivity |].
  destruct (String.eqb asset "platinum");
    [eexists; eexists; vm_compute; reflexivity |].
  rewrite (existsb_eqb_not_in _ asset Hproto).
  eexists. eexists. vm_compute. reflexivity.
Qed.

Lemma redemptionDeliveryFee_nonneg (q : float) (deliveryMethod : string) :
  SFsigned false (Prim2SF (redemptionDeliveryFee q deliveryMethod)).
Proof.
  unfold redemptionDeliveryFee.
  repeat match goal with
         | |- context [if ?c then _ else _] => destruct c
         end; vm_compute; first [exact I | reflexivity].
Qed.

(** X23: over binary64, for every asset name that is not inherited from
    Object.prototype, every quantity that is not negative (Infinity
    included) and every delivery method: the delivery fee, the insurance
    fee, the processing fee and the total fees are not negative, and so
    are numbers. *)
Theorem calculateRedemptionFees_signs :
  forall (asset : string) (quantityGrams : float) (deliveryMethod : string),
    ~ In asset Object_prototype ->
    (lit 0 <=? quantityGrams) = true ->
    let r := calculateRedemptionFees asset quantityGrams deliveryMethod in
    (lit 0 <=? deliveryFee r) = true /\ (lit 0 <=? insuranceFee r) = true /\
    (lit 0 <=? processingFee r) = true /\ (lit 0 <=? totalFees r) = true.
Proof.
  intros asset q method Hproto Hq r. subst r.
  destruct (redemptionPrice_positive asset Hproto) as (m & e & Hprice).
  apply float_nonneg_signed in Hq.
  assert (H1 : Prim2SF (lit 0.005) = S754_finite false 5764607523034235 (-60))
    by (vm_compute; reflexivity).
  assert (H2 : Prim2SF (lit 0.01) = S754_finite false 5764607523034235 (-59))
    by (vm_compute; reflexivity).
  assert (Hv : SFsigned false (Prim2SF (redemptionValue asset q)))
    by (apply (float_mul_signed false _ _ _ _ Hprice); exact Hq).
  pose proof (redemptionDeliveryFee_nonneg q method) as Hd.
  pose proof (float_mul_signed false _ _ _ _ H1 Hv) as Hins.
  pose proof (float_mul_signed false _ _ _ _ H2 Hv) as Hproc.
  unfold calculateRedemptionFees.
  cbv [deliveryFee insuranceFee processingFee totalFees].
  split; [apply float_nonneg_signed; exact Hd |].
  split; [apply float_nonneg_signed, round2_signed; exact Hins |].
  split; [apply float_nonneg_signed, round2_signed; exact Hproc |].
  apply float_nonneg_signed, round2_signed.
  apply float_add_signed; [apply float_add_signed; [exact Hd | exact Hins] |].
  exact Hproc.
Qed.

Lemma calculateRedemptionFees_signs_witness :
  (lit 0 <=? deliveryFee (calculateRedemptionFees "silver" (lit 60 : float) "HOME")) = true /\
  (lit 0 <=? insuranceFee (calculateRedemptionFees "silver" (lit 60 : float) "HOME")) = true /\
  (lit 0 <=? processingFee (calculateRedemptionFees "silver" (lit 60 : float) "HOME")) = true /\
  (lit 0 <=? totalFees (calculateRedemptionFees "silver" (lit 60 : float) "HOME")) = true.
Proof.
  apply (calculateRedemptionFees_signs "silver" (lit 60) "HOME").
  - cbv [Object_prototype In]. intros H.
    repeat (destruct H as [H | H]; [discriminate H |]). exact H.
  - vm_compute. reflexivity.
Defined.

(** ** calculateFees: the trade type, the asset and the sign of the fees *)

(** X14: in every number model, neither the trade type nor the asset
    changes the breakdown: a sale costs what a purchase costs. *)
Theorem calculateFees_type_independent :
  forall (N : Type) (JS : JSNumber N) (type type' asset asset' : string)
         (quantity price : N),
    calculateFees type asset quantity price =
    calculateFees type' asset' quantity price.
Proof.
  intros N JS type type' asset asset' quantity price. unfold calculateFees.
  destruct (String.eqb type "buy"), (String.eqb type' "buy"); reflexivity.
Qed.

(** X15: over binary64, the four fee fields of a breakdown have the sign
    of the principal quantity * midPrice: none is negative when the
    principal is not negative, none is positive when it is not positive. *)
Theorem calculateFees_signs :
  forall (type asset : string) (quantity midPrice : float),
    let b := calculateFees type asset quantity midPrice in
    ((lit 0 <=? quantity * midPrice) = true ->
       (lit 0 <=? spreadFee b) = true /\ (lit 0 <=? platformFee b) = true /\
       (lit 0 <=? gst b) = true /\ (lit 0 <=? totalFee b) = true) /\
    ((quantity * midPrice <=? lit 0) = true ->
       (spreadFee b <=? lit 0) = true /\ (platformFee b <=? lit 0) = true /\
       (gst b <=? lit 0) = true /\ (totalFee b <=? lit 0) = true).
Proof.
  intros type asset quantity midPrice b.
  assert (H1 : Prim2SF (lit 0.01) = S754_finite false 5764607523034235 (-59))
    by (vm_compute; reflexivity).
  assert (H2 : Prim2SF (lit 0.001) = S754_finite false 4611686018427388 (-62))
    by (vm_compute; reflexivity).
  assert (H3 : Prim2SF (lit 0.18) = S754_finite false 6485183463413514 (-55))
    by (vm_compute; reflexivity).
  assert (Hall : forall s, SFsigned s (Prim2SF (quantity * midPrice)) ->
            SFsigned s (Prim2SF (spreadFee b)) /\
            SFsigned s (Prim2SF (platformFee b)) /\
            SFsigned s (Prim2SF (gst b)) /\ SFsigned s (Prim2SF (totalFee b))).
  { intros s Hs. subst b. unfold calculateFees.
    cbv [spreadFee platformFee gst totalFee].
    assert (Hsp : SFsigned s (Prim2SF (quantity * midPrice * lit 0.01)))
      by (apply (float_mul_signed s _ _ _ _ H1); exact Hs).
    assert (Hpl : SFsigned s (Prim2SF (quantity * midPrice *
               (if String.eqb type "buy" then lit 0.001 else lit 0.001)))).
    { destruct (String.eqb type "buy");
        apply (float_mul_signed s _ _ _ _ H2); exact Hs. }
    assert (Hg : SFsigned s (Prim2SF
               ((quantity * midPrice * lit 0.01 +
                 quantity * midPrice *
                 (if String.eqb type "buy" then lit 0.001 else lit 0.001))
                * lit 0.18))).
    { apply (float_mul_signed s _ _ _ _ H3).
      apply float_add_signed; assumption. }
    repeat split; apply round2_signed; try assumption.
    apply float_add_signed; [apply float_add_signed |]; assumption. }
  split; intros Hp.
  - apply float_nonneg_signed in Hp. destruct (Hall false Hp) as (A & B & C & D).
    repeat split; apply float_nonneg_signed; assumption.
  - apply float_nonpos_signed in Hp. destruct (Hall true Hp) as (A & B & C & D).
    repeat split; apply float_nonpos_signed; assumption.
Qed.

Lemma calculateFees_signs_witness :
  (lit 0 <=? totalFee (calculateFees "buy" "gold" (lit 2 : float) (lit 6000))) = true /\
  (totalFee (calculateFees "sell" "gold" (lit (-2) : float) (lit 6000)) <=? lit 0) = true.
Proof.
  split.
  - apply (proj1 (calculateFees_signs "buy" "gold" (lit 2) (lit 6000))).
    vm_compute. reflexivity.
  - apply (proj2 (calculateFees_signs "sell" "gold" (lit (-2)) (lit 6000))).
    vm_compute. reflexivity.
Defined.

(** ** calculateProfitLoss: the sign of the fields *)

(** X16: over binary64, the flag and the rounded profit agree in sign: a
    result flagged as a profit has a profit field that is not negative;
    for finite amounts, a result that is not flagged has a profit field
    that is not positive. *)
Theorem calculateProfitLoss_signs :
  forall (invested current : float),
    let r := calculateProfitLoss invested current in
    (isProfit r = true -> (lit 0 <=? profit r) = true) /\
    (isProfit r = false ->
       is_finite invested = true -> is_finite current = true ->
       (profit r <=? lit 0) = true).
Proof.
  intros invested current r. subst r. unfold calculateProfitLoss.
  cbv [isProfit profit]. split.
  - intros Hp. apply float_nonneg_signed. apply round2_signed.
    apply float_nonneg_signed. exact Hp.
  - intros Hp Hi Hc. apply float_nonpos_signed. apply round2_signed.
    pose proof (float_sub_finite current invested Hc Hi) as Hnan.
    cbn [le float_number lit] in Hp. rewrite leb_spec in Hp.
    change (Prim2SF (float_lit 0)) with (S754_zero false) in Hp.
    cbn [sub float_number] in *.
    destruct (Prim2SF (current - invested)%float) as [s | [] | | [] m e];
      cbn in *; try discriminate; try reflexivity.
    contradiction Hnan. reflexivity.
Qed.

Lemma calculateProfitLoss_signs_witness :
  (lit 0 <=? profit (calculateProfitLoss (lit 100 : float) (lit 120))) = true /\
  (profit (calculateProfitLoss (lit 100 : float) (lit 80)) <=? lit 0) = true.
Proof.
  split.
  - apply (proj1 (calculateProfitLoss_signs (lit 100) (lit 120))).
    vm_compute. reflexivity.
  - apply (proj2 (calculateProfitLoss_signs (lit 100) (lit 80)));
      vm_compute; reflexivity.
Defined.

(** ** calculateDiversification: missing entries and the allocation *)

(** X18: over binary64, a portfolio with no entry for any of the four
    assets takes the early return: score 0, no allocation, no hhi, and risk
    level LOW. *)
Theorem calculateDiversification_missing_assets :
  forall portfolio : list (string * Holding float),
    (forall a, In a assets -> own portfolio a = None) ->
    calculateDiversification portfolio =
      {| diversificationScore := lit 0; allocation := [];
         riskLevel := "LOW"; hhi := None |}.
Proof.
  intros portfolio Hmissing.
  assert (Hvalue : forall a, In a assets -> holdingValue portfolio a = lit 0).
  { intros a Ha. unfold holdingValue, get. rewrite (Hmissing a Ha).
    destruct (existsb (String.eqb a) Object_prototype); vm_compute; reflexivity. }
  unfold calculateDiversification. cbv [assets fold_left].
  rewrite !Hvalue by (cbv [assets In]; auto 6).
  vm_compute. reflexivity.
Qed.

Lemma calculateDiversification_missing_assets_witness :
  calculateDiversification
    [("copper", {| balance := lit 5 : float; currentPrice := lit 700 |})] =
    {| diversificationScore := lit 0; allocation := [];
       riskLevel := "LOW"; hhi := None |}.
Proof.
  apply calculateDiversification_missing_assets.
  intros a Ha. cbv [assets In] in Ha.
  destruct Ha as [<- | [<- | [<- | [<- | []]]]]; reflexivity.
Defined.

(** X22: over binary64, under the hypotheses of the concentration
    property: a portfolio whose entire value is in one asset has riskLevel
    HIGH, an allocation weight of 100 for that asset and of 0 for the
    three others; a portfolio of four assets of equal value has an
    allocation weight of 25 for each. *)
Theorem calculateDiversification_allocation_weights :
  forall (portfolio : list (string * Holding float)) (v : float),
    (forall a, singleAsset portfolio a v ->
       (v =? lit 0) = false -> is_finite v = true ->
       riskLevel (calculateDiversification portfolio) = "HIGH" /\
       forall b, In b assets ->
         exists share,
           own (allocation (calculateDiversification portfolio)) b = Some share /\
           weight share === (if String.eqb b a then lit 100 else lit 0)) /\
    (equalValues portfolio v ->
       (v =? lit 0) = false -> is_finite (v + v + v + v)%float = true ->
       forall b, In b assets ->
         exists share,
           own (allocation (calculateDiversification portfolio)) b = Some share /\
           weight share = lit 25).
Proof.
  intros portfolio v. split.
  - intros a (Ha & Hw & Hrest) Hnz Hfin.
    destruct (float_finite_nonzero v Hfin Hnz) as (s & m & e & Hv).
    destruct (float_finite_truthy v s m e Hv) as [_ Ht].
    assert (Hz : forall b, In b assets -> b <> a ->
                   holdingValue portfolio b = lit 0).
    { intros b Hb Hba. apply holdingValue_no_worth.
      intros w. apply Hrest; assumption. }
    pose proof (holdingValue_worth portfolio a v Hw Ht) as Hva.
    assert (H00 : @add float _ (lit 0) (lit 0) = lit 0)
      by (vm_compute; reflexivity).
    unfold calculateDiversification. cbv [assets fold_left map].
    cbv [assets In] in Ha, Hz.
    destruct Ha as [<- | [<- | [<- | [<- | []]]]];
      rewrite Hva, ?Hz
        by (first [discriminate | repeat first [left; reflexivity | right]]);
      rewrite ?H00, ?(float_add_zero_l v s m e Hv),
        ?(float_add_zero_r v s m e Hv);
      rewrite Hnz; cbv [riskLevel allocation];
      rewrite (float_div_self v s m e Hv), (float_zero_div v s m e Hv);
      (split; [destruct s; vm_compute; reflexivity |]);
      intros b Hb; asset_cases Hb; cbn [own String.eqb Ascii.eqb Bool.eqb];
      eexists; (split; [reflexivity |]); cbv [weight];
      destruct s; vm_compute; reflexivity.
  - intros Heq Hnz Hfin.
    destruct (float_quarter_of_sum v Hnz Hfin) as (Hq & HT & Ht).
    assert (Hva : forall a, In a assets -> holdingValue portfolio a = v).
    { intros a Ha. apply holdingValue_worth; [apply Heq; assumption | exact Ht]. }
    unfold calculateDiversification. cbv [assets fold_left map].
    rewrite !Hva by (cbv [assets In]; repeat first [left; reflexivity | right]).
    rewrite HT. cbv [allocation]. rewrite Hq.
    intros b Hb; asset_cases Hb; cbn [own String.eqb Ascii.eqb Bool.eqb];
      eexists; (split; [reflexivity |]); cbv [weight];
      vm_compute; reflexivity.
Qed.

Lemma calculateDiversification_allocation_weights_witness :
  exists share,
    own (allocation
           (calculateDiversification
              [("gold", {| balance := lit 1 : float; currentPrice := lit 6000 |});
               ("silver", {| balance := lit 80; currentPrice := lit 75 |});
               ("platinum", {| balance := lit 2; currentPrice := lit 3000 |});
               ("stablecoin", {| balance := lit 6000; currentPrice := lit 1 |})]))
      "silver" = Some share /\
    weight share = lit 25.
Proof.
  apply (proj2 (calculateDiversification_allocation_weights _ (lit 6000))).
  - intros a Ha. asset_cases Ha; vm_compute; reflexivity.
  - vm_compute. reflexivity.
  - vm_compute. reflexivity.
  - cbv [assets In]. auto.
Defined.

(** ** getMinimumAmounts and getMaximumAmounts on the known assets *)

Lemma levelMultiplier_cases (N : Type) (JS : JSNumber N) (level : Z) :
  (level = 2%Z /\ levelMultiplier level = lit 0.5) \/
  (level = 3%Z /\ levelMultiplier level = lit 1.0) \/
  (level = 4%Z /\ levelMultiplier level = lit 2.0) \/
  (level <> 2%Z /\ level <> 3%Z /\ level <> 4%Z /\
   levelMultiplier level = lit 0.1).
Proof.
  destruct level as [| p | p];
    [right; right; right; repeat split; discriminate | |
     right; right; right; repeat split; discriminate].
  destruct p as [[p | p |] | [p | [p | p |] |] |]; cbn;
    first [ left; split; reflexivity
          | right; left; split; reflexivity
          | right; right; left; split; reflexivity
          | right; right; right; repeat split; discriminate ].
Qed.

(** X19: over binary64, for each of the four known assets and every KYC
    level (also an unknown one), the maximum lookup does not fail, the
    maximum has the unit of the minimum, and the minimum amount and its INR
    value do not exceed the maximum amount and its INR value. *)
Theorem limits_of_known_asset :
  forall (asset : string) (user : User),
    In asset assets ->
    exists minimum maximum : Limits float,
      getMinimumAmounts asset = Own minimum /\
      getMaximumAmounts asset user = Normal maximum /\
      unit_ maximum = unit_ minimum /\
      (amount minimum <=? amount maximum) = true /\
      (inr minimum <=? inr maximum) = true.
Proof.
  intros asset [level] Hasset. unfold getMaximumAmounts. cbn [kycLevel].
  cbv [assets In] in Hasset.
  destruct (levelMultiplier_cases float _ level)
    as [[_ ->] | [[_ ->] | [[_ ->] | (_ & _ & _ & ->)]]];
    destruct Hasset as [<- | [<- | [<- | [<- | []]]]];
    eexists; eexists;
    (split; [vm_compute; reflexivity |]);
    (split; [cbn; reflexivity |]);
    repeat split; vm_compute; reflexivity.
Qed.

Lemma limits_of_known_asset_witness :
  exists minimum maximum : Limits float,
    getMinimumAmounts "silver" = Own minimum /\
    getMaximumAmounts "silver" {| kycLevel := 7 |} = Normal maximum /\
    unit_ maximum = unit_ minimum /\
    (amount minimum <=? amount maximum) = true /\
    (inr minimum <=? inr maximum) = true.
Proof.
  apply (limits_of_known_asset "silver" {| kycLevel := 7 |}).
  cbv [assets In]. auto.
Defined.

(** X20: in every number model, a KYC level other than 2, 3 and 4 (zero, a
    negative level, 5 and above) gets the limits of level 1, for every
    asset name. *)
Theorem getMaximumAmounts_unknown_level :
  forall (N : Type) (JS : JSNumber N) (asset : string) (level : Z),
    level <> 2%Z -> level <> 3%Z -> level <> 4%Z ->
    (getMaximumAmounts asset {| kycLevel := level |} : completion (Limits N)) =
    getMaximumAmounts asset {| kycLevel := 1 |}.
Proof.
  intros N JS asset level H2 H3 H4. unfold getMaximumAmounts. cbn [kycLevel].
  destruct (levelMultiplier_cases N JS level)
    as [[E _] | [[E _] | [[E _] | (_ & _ & _ & ->)]]];
    try contradiction.
  reflexivity.
Qed.

Lemma getMaximumAmounts_unknown_level_witness :
  (getMaximumAmounts "gold" {| kycLevel := 9 |} : completion (Limits float)) =
  getMaximumAmounts "gold" {| kycLevel := 1 |}.
Proof.
  apply (getMaximumAmounts_unknown_level float _ "gold" 9); discriminate.
Defined.

(** X21: over binary64, for each of the four known assets the maximum
    amount and its INR value grow with the KYC level from 1 to 4. *)
Theorem getMaximumAmounts_level_monotone :
  forall (asset : string) (level level' : Z),
    In asset assets -> (1 <= level)%Z -> (level <= level')%Z -> (level' <= 4)%Z ->
    exists lower higher : Limits float,
      getMaximumAmounts asset {| kycLevel := level |} = Normal lower /\
      getMaximumAmounts asset {| kycLevel := level' |} = Normal higher /\
      (amount lower <=? amount higher) = true /\
      (inr lower <=? inr higher) = true.
Proof.
  intros asset level level' Hasset H1 Hle H4.
  assert (Hl : level = 1%Z \/ level = 2%Z \/ level = 3%Z \/ level = 4%Z) by lia.
  assert (Hl' : level' = 1%Z \/ level' = 2%Z \/ level' = 3%Z \/ level' = 4%Z)
    by lia.
  cbv [assets In] in Hasset.
  destruct Hasset as [<- | [<- | [<- | [<- | []]]]];
    destruct Hl as [-> | [-> | [-> | ->]]];
    destruct Hl' as [-> | [-> | [-> | ->]]]; try lia;
    eexists; eexists;
    (split; [vm_compute; reflexivity |]);
    (split; [vm_compute; reflexivity |]);
    split; vm_compute; reflexivity.
Qed.

Lemma getMaximumAmounts_level_monotone_witness :
  exists lower higher : Limits float,
    getMaximumAmounts "platinum" {| kycLevel := 2 |} = Normal lower /\
    getMaximumAmounts "platinum" {| kycLevel := 4 |} = Normal higher /\
    (amount lower <=? amount higher) = true /\
    (inr lower <=? inr higher) = true.
Proof.
  apply (getMaximumAmounts_level_monotone "platinum" 2 4);
    [cbv [assets In]; auto | lia | lia | lia].
Defined.
